(** * molpal.models.base: the Model contract and its batched inference driver

    A shallow embedding of [src/molpal/models/base.py].

    - Python values that travel through the input streams are untyped: an
      element of [x_feats] is a single feature representation or an already
      built batch of them, and only the caller knows which.  They are modelled
      by [pyval], atoms and lists of values.
    - Python [int] is [Z]; [//] is floor division ([Z.div]) and raises
      [ZeroDivisionError] on a zero divisor.
    - [Optional[int]] is [option Z]; its truth value is [truthy].
    - The abstract methods [get_means] and [get_means_and_vars] belong to the
      backend.  A backend may keep state of its own (a stochastic model draws
      from a generator) and may raise; a prediction call is a function of the
      batch and the backend state returning an error or the arrays, and the
      next backend state.
    - [apply] runs in a small state and exception monad over a [world]: the
      backend state, the prediction calls made so far and the totals handed to
      the progress bar.  *)

From Stdlib Require Import String.
From Stdlib Require Import ZArith List Bool Lia.
From Equations Require Import Equations.
Import ListNotations.

Local Open Scope Z_scope.

Set Implicit Arguments.

(** ** Batching helper *)

Section Batches.
Context {X : Type}.

(** Modelled from the spec: the recursion behind [batches], for a batch size
    [S k].  A non-empty stream gives up its first [S k] elements (fewer if it
    is shorter) as one batch, and the rest is cut the same way. *)
Equations chunks (k : nat) (xs : list X) : list (list X) by wf (length xs) lt :=
  chunks k [] := [];
  chunks k (x :: xs) := (x :: firstn k xs) :: chunks k (skipn k xs).
Next Obligation.
  pose proof (length_skipn k xs). simpl. lia.
Qed.

(** Modelled from the spec: [molpal.models.utils.batches] is imported by
    [base.py] but its source is not part of the files at hand.  The spec
    (section 4.1, step 4) has it group a stream into consecutive,
    non-overlapping batches of [chunk_size] elements each, preserving the
    original order, the final batch possibly shorter; an empty stream has no
    batch.  The spec fixes the result for a positive [chunk_size] only;
    here a non-positive one yields no batch, and every statement below about
    the shape of the batches assumes a positive size. *)
Definition batches (xs : list X) (chunk_size : Z) : list (list X) :=
  match chunk_size with
  | Z.pos p => chunks (Nat.pred (Pos.to_nat p)) xs
  | _ => []
  end.

(** The spec's words for what re-batching must produce: [bs] cuts [xs] into
    consecutive, non-overlapping batches of [n] elements each, in the original
    order, the final batch possibly shorter.  Put end to end the batches give
    [xs] back; the i-th batch is the slice of [n] elements that starts at
    [i * n]; no batch is empty or longer than [n]; all but the last hold
    exactly [n] elements. *)
Definition consecutive_batches (n : Z) (xs : list X) (bs : list (list X)) : Prop :=
  concat bs = xs /\
  (forall i, nth i bs [] = firstn (Z.to_nat n) (skipn (i * Z.to_nat n) xs)) /\
  Forall (fun b => 1 <= Z.of_nat (length b) <= n) bs /\
  (forall pre last, bs = pre ++ [last] ->
                    Forall (fun b => Z.of_nat (length b) = n) pre).
End Batches.

(** ** Data model *)

Section ModelContract.
Variable A : Type.   (* input identifiers and feature representations *)
Variable V : Type.   (* predicted values (floats in the source) *)
Variable E : Type.   (* backend-defined prediction errors *)
Variable S : Type.   (* backend state *)

(** A value yielded by an input stream or handed to a prediction call. *)
#[warnings="-register-all"]
Inductive pyval : Type :=
| Atom (a : A)
| PyList (l : list pyval).

(** The exceptions that can leave [apply], told apart by where they are
    raised: [ZeroDivisionError] is the one of [apply]'s own [//];
    [PredictionError e] is an exception [e] raised inside a call of a backend
    method, whatever its Python class. *)
Inductive exn : Type :=
| ZeroDivisionError
| PredictionError (e : E).

Inductive result (T : Type) : Type :=
| Ok (x : T)
| Raise (e : exn).
Arguments Raise {T} e.

Inductive method : Type := GetMeans | GetMeansAndVars.

Record world : Type := World {
  backend : S;                       (* state owned by the concrete model *)
  calls : list (method * pyval);     (* prediction calls, oldest first *)
  progress : list (option Z)         (* [total] of each progress bar opened *)
}.

(** [class Model(ABC)]: the instance attribute set by [__init__] and the
    abstract members every concrete model supplies. *)
Record Model : Type := {
  test_batch_size : Z;
  provides : list string;
  type_ : string;
  get_means : pyval -> S -> (E + list V) * S;
  get_means_and_vars : pyval -> S -> (E + list V * list V) * S
}.

(** The abstract members alone, as a subclass defines them. *)
Record Backend : Type := {
  b_provides : list string;
  b_type_ : string;
  b_get_means : pyval -> S -> (E + list V) * S;
  b_get_means_and_vars : pyval -> S -> (E + list V * list V) * S
}.

(** [Model.__init__(self, test_batch_size, **kwargs)]: stores its argument. *)
Definition __init__ (cls : Backend) (test_batch_size : Z) : Model :=
  {| test_batch_size := test_batch_size;
     provides := b_provides cls;
     type_ := b_type_ cls;
     get_means := b_get_means cls;
     get_means_and_vars := b_get_means_and_vars cls |}.

(** ** The monad of [apply] *)

Definition M (T : Type) : Type := world -> result T * world.

Definition ret {T} (x : T) : M T := fun w => (Ok x, w).

Definition bind {T U} (c : M T) (k : T -> M U) : M U :=
  fun w => match c w with
           | (Ok x, w') => k x w'
           | (Raise e, w') => (Raise e, w')
           end.

Definition raise {T} (e : exn) : M T := fun w => (Raise e, w).

Notation "x <- c ;; k" := (bind c (fun x => k))
  (at level 61, c at next level, right associativity).
Notation "' p <- c ;; k" := (bind c (fun x => let 'p := x in k))
  (at level 61, p pattern, c at next level, right associativity).

(** Python's [a // b] on integers. *)
Definition floordiv (a b : Z) : M Z :=
  if b =? 0 then raise ZeroDivisionError else ret (a / b).

(** Truth value of an [Optional[int]]: [None] and [0] are false. *)
Definition truthy (o : option Z) : bool :=
  match o with
  | Some n => negb (n =? 0)
  | None => false
  end.

(** [(size // d) + 1 if size else None], the expression of lines 128 and 130. *)
Definition n_batches_expr (size : option Z) (d : Z) : M (option Z) :=
  match size with
  | Some n => if n =? 0 then ret None
              else q <- floordiv n d ;; ret (Some (q + 1))
  | None => ret None
  end.

(** [tqdm(xs, total=n_batches, ...)]: shows a bar with the given total and
    yields the elements of [xs] unchanged. *)
Definition tqdm (xs : list pyval) (total : option Z) : M (list pyval) :=
  fun w => (Ok xs, {| backend := backend w; calls := calls w;
                      progress := progress w ++ [total] |}).

(** A call of a backend method on a batch: the backend runs from its current
    state, the call is recorded, an error it signals is raised. *)
Definition invoke {R} (mth : method) (f : pyval -> S -> (E + R) * S)
           (batch_xs : pyval) : M R :=
  fun w =>
    let '(r, s') := f batch_xs (backend w) in
    let w' := {| backend := s'; calls := calls w ++ [(mth, batch_xs)];
                 progress := progress w |} in
    match r with
    | inl e => (Raise (PredictionError e), w')
    | inr v => (Ok v, w')
    end.

(** [self.get_means(batch_xs)] *)
Definition call_get_means (self : Model) (batch_xs : pyval) : M (list V) :=
  invoke GetMeans (get_means self) batch_xs.

(** [self.get_means_and_vars(batch_xs)] *)
Definition call_get_means_and_vars (self : Model) (batch_xs : pyval)
  : M (list V * list V) :=
  invoke GetMeansAndVars (get_means_and_vars self) batch_xs.

(** A [for] loop over a finite iterable whose body updates local variables. *)
Fixpoint for_each {T} (xs : list pyval) (body : pyval -> T -> M T) (acc : T) : M T :=
  match xs with
  | [] => ret acc
  | x :: xs' => acc' <- body x acc ;; for_each xs' body acc'
  end.

(** ** [Model.apply] *)

Definition apply (self : Model) (x_ids x_feats : list pyval)
           (batched_size size : option Z) (mean_only : bool)
  : M (list V * list V) :=
  let '(xs, batched_size) :=
    if (type_ self =? "mpn")%string
    then (x_ids, None)          (* MPNs predict directly on the identifier *)
    else (x_feats, batched_size) in
  ' (n_batches, xs) <-
    (if truthy batched_size
     then n_batches <- n_batches_expr size (match batched_size with
                                            | Some b => b | None => 0 end) ;;
          ret (n_batches, xs)
     else n_batches <- n_batches_expr size (test_batch_size self) ;;
          ret (n_batches, map PyList (batches xs (test_batch_size self)))) ;;
  if mean_only then
    it <- tqdm xs n_batches ;;
    means <- for_each it
               (fun batch_xs means =>
                  batch_means <- call_get_means self batch_xs ;;
                  ret (means ++ batch_means)) [] ;;
    ret (means, [])
  else
    it <- tqdm xs n_batches ;;
    ' (means, variances) <- for_each it
      (fun batch_xs '(means, variances) =>
         ' (batch_means, batch_vars) <- call_get_means_and_vars self batch_xs ;;
         ret (means ++ batch_means, variances ++ batch_vars)) ([], []) ;;
    ret (means, variances).

(** [Model.__call__] *)
Definition __call__ := apply.

(** ** Vocabulary of the statements *)

(** The model predicts directly on identifiers. *)
Definition direct_identifier (self : Model) : Prop := type_ self = "mpn"%string.

(** The caller's pre-batching hint is in force: the model is not of the
    direct-identifier kind and [batched_size] is true as a condition. *)
Definition pre_batched (self : Model) (batched_size : option Z) : bool :=
  negb (type_ self =? "mpn")%string && truthy batched_size.

(** The stream of batches the loop of [apply] iterates over. *)
Definition batch_stream (self : Model) (x_ids x_feats : list pyval)
           (batched_size : option Z) : list pyval :=
  if (type_ self =? "mpn")%string
  then map PyList (batches x_ids (test_batch_size self))
  else if truthy batched_size then x_feats
       else map PyList (batches x_feats (test_batch_size self)).

(** The divisor of the progress estimate. *)
Definition effective_batch_size (self : Model) (batched_size : option Z) : Z :=
  if pre_batched self batched_size
  then match batched_size with Some b => b | None => 0 end
  else test_batch_size self.

(** The total shown by the progress bar, [None] for an unbounded counter. *)
Definition estimate (size : option Z) (d : Z) : option Z :=
  match size with
  | Some n => if n =? 0 then None else Some (n / d + 1)
  | None => None
  end.

(** The prediction call [apply] makes on a batch, by mode: the means alone
    (no variances collected) or means and variances. *)
Definition predict (self : Model) (mean_only : bool) (batch_xs : pyval) (s : S)
  : (E + list V * list V) * S :=
  if mean_only
  then let '(r, s') := get_means self batch_xs s in
       (match r with inl e => inl e | inr m => inr (m, []) end, s')
  else get_means_and_vars self batch_xs s.

(** Lines 133-148 of [apply]: the loop over the stream of batches [xs] under
    a progress bar of total [n_batches], by mode. *)
Definition inference_loop (self : Model) (mean_only : bool)
           (xs : list pyval) (n_batches : option Z) : M (list V * list V) :=
  if mean_only then
    it <- tqdm xs n_batches ;;
    means <- for_each it
               (fun batch_xs means =>
                  batch_means <- call_get_means self batch_xs ;;
                  ret (means ++ batch_means)) [] ;;
    ret (means, [])
  else
    it <- tqdm xs n_batches ;;
    ' (means, variances) <- for_each it
      (fun batch_xs '(means, variances) =>
         ' (batch_means, batch_vars) <- call_get_means_and_vars self batch_xs ;;
         ret (means ++ batch_means, variances ++ batch_vars)) ([], []) ;;
    ret (means, variances).

(** What one turn of the mean-and-variance loop does to its two lists. *)
Definition extend_both (acc r : list V * list V) : list V * list V :=
  (fst acc ++ fst r, snd acc ++ snd r).

Definition method_of (mean_only : bool) : method :=
  if mean_only then GetMeans else GetMeansAndVars.

(** [answers f s bs outs s']: called on the batches [bs] one after the other,
    from state [s], the backend method [f] returns [outs] without raising and
    ends in state [s']. *)
Inductive answers {R} (f : pyval -> S -> (E + R) * S)
  : S -> list pyval -> list R -> S -> Prop :=
| answers_nil : forall s, answers f s [] [] s
| answers_cons : forall s b r s1 bs rs s2,
    f b s = (inr r, s1) ->
    answers f s1 bs rs s2 ->
    answers f s (b :: bs) (r :: rs) s2.

(** The individual inputs behind a stream of batches; [None] when an element
    is not a batch. *)
Fixpoint unbatch (xs : list pyval) : option (list pyval) :=
  match xs with
  | [] => Some []
  | PyList l :: rest =>
      match unbatch rest with
      | Some r => Some (l ++ r)
      | None => None
      end
  | Atom _ :: _ => None
  end.

(** The individual inputs [apply] is asked to predict on. *)
Definition individual_inputs (self : Model) (x_ids x_feats : list pyval)
           (batched_size : option Z) : option (list pyval) :=
  if (type_ self =? "mpn")%string then Some x_ids
  else if truthy batched_size then unbatch x_feats
       else Some x_feats.

(** [get_means] returns one mean per input of the batch. *)
Definition one_mean_per_input (self : Model) : Prop :=
  forall l s, exists ms s',
    get_means self (PyList l) s = (inr ms, s') /\ length ms = length l.

(** [get_means_and_vars] returns one mean and one variance per input. *)
Definition one_mean_and_var_per_input (self : Model) : Prop :=
  forall l s, exists ms vs s',
    get_means_and_vars self (PyList l) s = (inr (ms, vs), s') /\
    length ms = length l /\ length vs = length l.

(** The predictions are functions of the individual input: [mu] gives the
    mean and [var] the variance of an input, whatever batch it comes in and
    whatever the backend state. *)
Definition pointwise_backend (self : Model) (mu var : pyval -> V) : Prop :=
  (forall l s, fst (get_means self (PyList l) s) = inr (map mu l)) /\
  (forall l s, fst (get_means_and_vars self (PyList l) s)
               = inr (map mu l, map var l)).

(** The estimate divides by zero: [size] is true as a condition and the
    divisor is 0. *)
Definition estimate_raises (self : Model) (batched_size size : option Z) : bool :=
  truthy size && (effective_batch_size self batched_size =? 0).

End ModelContract.

Arguments Ok {E T} x.
Arguments Raise {E T} e.
Arguments ZeroDivisionError {E}.
Arguments extend_both {V} acc r.
Arguments ret {A E S T} x _.
Arguments tqdm {A E S} xs total _.
Arguments n_batches_expr {A E S} size d _.

(** ** Concrete models *)

Module Examples.

(** Identifiers are integers; the mean of an input is twice its identifier,
    its variance the square. *)
Definition mu (v : pyval Z) : Z :=
  match v with Atom a => 2 * a | PyList _ => 0 end.

Definition var (v : pyval Z) : Z :=
  match v with Atom a => a * a | PyList _ => 0 end.

Definition ids (l : list Z) : list (pyval Z) := map (@Atom Z) l.

(** A backend that counts the calls it serves and refuses what is not a
    batch. *)
Definition counting (kind : string) : Backend Z Z string nat :=
  {| b_provides := ["means"; "vars"]%string;
     b_type_ := kind;
     b_get_means := fun b s =>
       match b with
       | PyList l => (inr (map mu l), S s)
       | Atom _ => (inl "not a batch"%string, S s)
       end;
     b_get_means_and_vars := fun b s =>
       match b with
       | PyList l => (inr (map mu l, map var l), S s)
       | Atom _ => (inl "not a batch"%string, S s)
       end |}.

Definition unlucky (l : list (pyval Z)) : bool :=
  existsb (fun v => match v with Atom a => a =? 13 | PyList _ => false end) l.

(** A backend that fails on a batch holding the identifier 13. *)
Definition superstitious (kind : string) : Backend Z Z string nat :=
  {| b_provides := ["means"; "vars"]%string;
     b_type_ := kind;
     b_get_means := fun b s =>
       match b with
       | PyList l => if unlucky l then (inl "thirteen"%string, S s)
                     else (inr (map mu l), S s)
       | Atom _ => (inl "not a batch"%string, S s)
       end;
     b_get_means_and_vars := fun b s =>
       match b with
       | PyList l => if unlucky l then (inl "thirteen"%string, S s)
                     else (inr (map mu l, map var l), S s)
       | Atom _ => (inl "not a batch"%string, S s)
       end |}.

(** A fresh world: backend at rest, nothing called, no bar shown. *)
Definition w0 : world Z nat := World (A := Z) 0%nat [] [].

(** Three instances with [test_batch_size = 2]: a feature-based model, a
    message-passing network, and a feature-based model that can fail. *)
Definition forest : Model Z Z string nat := __init__ (counting "rf") 2.
Definition network : Model Z Z string nat := __init__ (counting "mpn") 2.
Definition wary : Model Z Z string nat := __init__ (superstitious "rf") 2.

(** A feature-based model with [test_batch_size = 50]. *)
Definition forest50 : Model Z Z string nat := __init__ (counting "rf") 50.

Definition five : list (pyval Z) := ids [1; 2; 3; 4; 5].
Definition five13 : list (pyval Z) := ids [1; 2; 13; 4; 5].

(** The five inputs as the caller would pre-batch them by three. *)
Definition five_by_3 : list (pyval Z) :=
  [PyList (ids [1; 2; 3]); PyList (ids [4; 5])].

End Examples.

(** * Facts *)

(** ** The batches made *)

Section BatchesFacts.
Context {X : Type}.
Implicit Types (xs : list X) (k i : nat).

Lemma chunks_concat k xs : concat (chunks k xs) = xs.
Proof.
  funelim (chunks k xs); simp chunks; [reflexivity|].
  simpl. rewrite H. now rewrite firstn_skipn.
Qed.

Lemma chunks_nth k xs i :
  nth i (chunks k xs) [] = firstn (Datatypes.S k) (skipn (i * Datatypes.S k) xs).
Proof.
  revert i. funelim (chunks k xs); intro i; simp chunks.
  - rewrite skipn_nil. now destruct i.
  - destruct i as [|i]; [reflexivity|].
    cbn [nth]. rewrite H.
    replace (Datatypes.S i * Datatypes.S k)%nat
      with (Datatypes.S (i * Datatypes.S k + k)) by lia.
    cbn [skipn]. now rewrite skipn_skipn.
Qed.

Lemma chunks_bounds k xs :
  Forall (fun b => (1 <= length b <= Datatypes.S k)%nat) (chunks k xs).
Proof.
  funelim (chunks k xs); simp chunks; constructor; [|assumption].
  pose proof (firstn_le_length k xs). simpl. lia.
Qed.

Lemma chunks_full k xs pre last :
  chunks k xs = pre ++ [last] ->
  Forall (fun b => length b = Datatypes.S k) pre.
Proof.
  revert pre. funelim (chunks k xs); intros pre; simp chunks; intros Hc.
  - now destruct pre.
  - destruct pre as [|p pre]; [constructor|].
    injection Hc as <- Hrest. constructor; [|eapply H; eassumption].
    simpl. f_equal. apply firstn_length_le.
    destruct (Nat.le_gt_cases k (length xs)) as [Hle|Hgt]; [assumption|].
    rewrite skipn_all2 in Hrest by lia. simp chunks in Hrest.
    now destruct pre.
Qed.

Lemma batches_concat xs n : 0 < n -> concat (batches xs n) = xs.
Proof. destruct n; try lia. intros _. apply chunks_concat. Qed.

Lemma batches_nil n : batches (@nil X) n = [].
Proof. destruct n; reflexivity. Qed.

Lemma batches_nth xs n i :
  0 < n ->
  nth i (batches xs n) [] = firstn (Z.to_nat n) (skipn (i * Z.to_nat n) xs).
Proof.
  destruct n as [|p|p]; try lia. intros _. unfold batches.
  rewrite chunks_nth.
  now replace (Datatypes.S (Nat.pred (Pos.to_nat p))) with (Z.to_nat (Z.pos p)) by lia.
Qed.

Lemma batches_bounds xs n :
  0 < n ->
  Forall (fun b => 1 <= Z.of_nat (length b) <= n) (batches xs n).
Proof.
  destruct n as [|p|p]; try lia. intros _. unfold batches.
  eapply Forall_impl; [|apply chunks_bounds]. simpl. intros b. lia.
Qed.

Lemma batches_full xs n pre last :
  0 < n ->
  batches xs n = pre ++ [last] ->
  Forall (fun b => Z.of_nat (length b) = n) pre.
Proof.
  destruct n as [|p|p]; try lia. intros _ Hb.
  eapply Forall_impl; [|eapply chunks_full; exact Hb]. simpl. intros b. lia.
Qed.

Lemma batches_consecutive xs n :
  0 < n -> consecutive_batches n xs (batches xs n).
Proof.
  intros Hn. unfold consecutive_batches.
  split; [now apply batches_concat|].
  split; [intro i; now apply batches_nth|].
  split; [now apply batches_bounds|].
  intros pre last. now apply batches_full.
Qed.

End BatchesFacts.

(** ** The loop of [apply] *)

Section DriverFacts.
Context {A V E S : Type}.
Implicit Types (self : Model A V E S) (w : world A S) (s : S).
Implicit Types (bs xs x_ids x_feats : list (pyval A)) (b : pyval A).
Implicit Types (batched_size size n_batches : option Z) (mean_only : bool).

Lemma fold_left_extend (outs : list (list V)) (acc : list V) :
  fold_left (@app V) outs acc = acc ++ concat outs.
Proof.
  revert acc. induction outs as [|o outs IH]; intro acc; simpl.
  - now rewrite app_nil_r.
  - now rewrite IH, app_assoc.
Qed.

Lemma fold_left_extend_both (outs : list (list V * list V)) acc :
  fold_left extend_both outs acc
  = (fst acc ++ concat (map fst outs), snd acc ++ concat (map snd outs)).
Proof.
  revert acc. induction outs as [|o outs IH]; intro acc; simpl.
  - rewrite !app_nil_r. now destruct acc.
  - rewrite IH. simpl. now rewrite !app_assoc.
Qed.

(** A loop whose body calls the backend and folds the answer into the
    accumulator, on a stream the backend answers throughout. *)
Lemma for_each_answers {R T} mth (f : pyval A -> S -> (E + R) * S)
      (g : T -> R -> T) (body : pyval A -> T -> M A E S T) :
  (forall b acc w,
      body b acc w = bind (invoke mth f b) (fun r => ret (g acc r)) w) ->
  forall s bs outs s',
    answers f s bs outs s' ->
    forall acc w, backend w = s ->
      for_each bs body acc w
      = (Ok (fold_left g outs acc),
         World s' (calls w ++ map (pair mth) bs) (progress w)).
Proof.
  intros Hbody s bs outs s' Hans.
  induction Hans as [s|s b r s1 bs rs s2 Hf _ IH]; intros acc w Hw.
  - simpl. unfold ret. rewrite app_nil_r. subst s. now destruct w.
  - simpl. unfold bind at 1. rewrite Hbody. unfold bind, invoke.
    rewrite Hw, Hf. cbv beta iota. unfold ret at 1.
    rewrite IH by reflexivity. simpl. now rewrite <- app_assoc.
Qed.

(** The same loop on a stream whose batch [b] makes the backend fail. *)
Lemma for_each_fails {R T} mth (f : pyval A -> S -> (E + R) * S)
      (g : T -> R -> T) (body : pyval A -> T -> M A E S T) :
  (forall b acc w,
      body b acc w = bind (invoke mth f b) (fun r => ret (g acc r)) w) ->
  forall s pre outs s1 b e s2 post,
    answers f s pre outs s1 ->
    f b s1 = (inl e, s2) ->
    forall acc w, backend w = s ->
      for_each (pre ++ b :: post) body acc w
      = (Raise (PredictionError e),
         World s2 (calls w ++ map (pair mth) (pre ++ [b])) (progress w)).
Proof.
  intros Hbody s pre outs s1 b e s2 post Hans.
  induction Hans as [s|s b0 r s1 bs rs s3 Hf _ IH]; intros Hb acc w Hw.
  - simpl. unfold bind at 1. rewrite Hbody. unfold bind, invoke.
    now rewrite Hw, Hb.
  - simpl. unfold bind at 1. rewrite Hbody. unfold bind, invoke.
    rewrite Hw, Hf. cbv beta iota. unfold ret at 1.
    rewrite (IH Hb) by reflexivity. simpl. now rewrite <- app_assoc.
Qed.

(** Every run of a backend method over a stream either answers all of it or
    fails at a first batch. *)
Lemma answers_or_fails {R} (f : pyval A -> S -> (E + R) * S) bs s :
  (exists outs s', answers f s bs outs s') \/
  (exists pre b post outs s1 e s2,
      bs = pre ++ b :: post /\ answers f s pre outs s1 /\ f b s1 = (inl e, s2)).
Proof.
  revert s. induction bs as [|b bs IH]; intro s.
  - left. exists [], s. constructor.
  - destruct (f b s) as [[e|r] s1] eqn:Hf.
    + right. exists [], b, bs, [], s, e, s1. repeat split; [constructor|assumption].
    + destruct (IH s1) as [(outs & s' & Hans)|(pre & b' & post & outs & s2 & e & s3 & -> & Hans & Hb)].
      * left. exists (r :: outs), s'. econstructor; eassumption.
      * right. exists (b :: pre), b', post, (r :: outs), s2, e, s3.
        repeat split; [econstructor; eassumption|assumption].
Qed.

Lemma answers_deterministic {R} (f : pyval A -> S -> (E + R) * S) s bs outs s' :
  answers f s bs outs s' ->
  forall outs2 s2, answers f s bs outs2 s2 -> outs2 = outs /\ s2 = s'.
Proof.
  induction 1 as [s|s b r s1 bs rs s2 Hf _ IH]; intros outs2 s3 H2;
    inversion H2; subst; [now split|].
  match goal with
  | Hf' : f b s = (inr ?r', ?s1') |- _ =>
      rewrite Hf in Hf'; injection Hf' as <- <-
  end.
  match goal with
  | H : answers f s1 bs _ _ |- _ => destruct (IH _ _ H) as [-> ->]
  end.
  now split.
Qed.

Lemma answers_length {R} (f : pyval A -> S -> (E + R) * S) s bs outs s' :
  answers f s bs outs s' -> length outs = length bs.
Proof. induction 1; simpl; congruence. Qed.

(** *** The two modes seen through [predict] *)

Lemma predict_mean_only_inr self b s r s1 :
  predict self true b s = (inr r, s1) ->
  get_means self b s = (inr (fst r), s1) /\ snd r = [].
Proof.
  unfold predict. destruct (get_means self b s) as [[e|m] s0]; intros H;
    inversion H; subst. now split.
Qed.

Lemma predict_mean_only_inl self b s e s1 :
  predict self true b s = (inl e, s1) -> get_means self b s = (inl e, s1).
Proof.
  unfold predict. destruct (get_means self b s) as [[e'|m] s0]; intros H;
    now inversion H.
Qed.

Lemma answers_predict_mean_only self s bs outs s' :
  answers (predict self true) s bs outs s' ->
  answers (get_means self) s bs (map fst outs) s' /\ concat (map snd outs) = [].
Proof.
  induction 1 as [s|s b r s1 bs rs s2 Hf _ [IH1 IH2]]; simpl.
  - split; [constructor|reflexivity].
  - apply predict_mean_only_inr in Hf as [Hg Hnil]. split.
    + econstructor; eassumption.
    + now rewrite Hnil, IH2.
Qed.

Lemma answers_get_means_predict self s bs ms s' :
  answers (get_means self) s bs ms s' ->
  answers (predict self true) s bs (map (fun m => (m, [])) ms) s'.
Proof.
  induction 1 as [s|s b r s1 bs rs s2 Hf _ IH]; simpl; [constructor|].
  econstructor; [|exact IH]. unfold predict. now rewrite Hf.
Qed.

(** *** The loop, by outcome *)

Lemma inference_loop_returns self mean_only xs n_batches w outs s' :
  answers (predict self mean_only) (backend w) xs outs s' ->
  inference_loop self mean_only xs n_batches w
  = (Ok (concat (map fst outs), concat (map snd outs)),
     World s' (calls w ++ map (pair (method_of mean_only)) xs)
           (progress w ++ [n_batches])).
Proof.
  intros Hans. destruct mean_only.
  - apply answers_predict_mean_only in Hans as [Hans Hnil].
    unfold inference_loop, bind, tqdm.
    erewrite (@for_each_answers _ _ GetMeans (get_means self) (@app V));
      [| reflexivity | exact Hans | reflexivity].
    rewrite fold_left_extend, Hnil. reflexivity.
  - unfold inference_loop, bind, tqdm.
    erewrite (@for_each_answers _ _ GetMeansAndVars (get_means_and_vars self)
                extend_both);
      [| | exact Hans | reflexivity].
    + rewrite fold_left_extend_both. reflexivity.
    + intros b [m v] w0. unfold bind, call_get_means_and_vars.
      destruct (invoke _ _ _ w0) as [[[bm bv]|e] w1]; reflexivity.
Qed.

Lemma inference_loop_fails self mean_only n_batches w pre b post outs s1 e s2 :
  answers (predict self mean_only) (backend w) pre outs s1 ->
  predict self mean_only b s1 = (inl e, s2) ->
  inference_loop self mean_only (pre ++ b :: post) n_batches w
  = (Raise (PredictionError e),
     World s2 (calls w ++ map (pair (method_of mean_only)) (pre ++ [b]))
           (progress w ++ [n_batches])).
Proof.
  intros Hans Hb. destruct mean_only.
  - apply answers_predict_mean_only in Hans as [Hans _].
    apply predict_mean_only_inl in Hb.
    unfold inference_loop, bind, tqdm.
    erewrite (@for_each_fails _ _ GetMeans (get_means self) (@app V));
      [| reflexivity | exact Hans | exact Hb | reflexivity].
    reflexivity.
  - unfold inference_loop, bind, tqdm.
    erewrite (@for_each_fails _ _ GetMeansAndVars (get_means_and_vars self)
                extend_both);
      [| | exact Hans | exact Hb | reflexivity].
    + reflexivity.
    + intros b0 [m v] w0. unfold bind, call_get_means_and_vars.
      destruct (invoke _ _ _ w0) as [[[bm bv]|e0] w1]; reflexivity.
Qed.

(** *** [apply] as estimate, then loop *)

Lemma n_batches_expr_run size d w :
  @n_batches_expr A E S size d w
  = if truthy size && (d =? 0) then (Raise ZeroDivisionError, w)
    else (Ok (estimate size d), w).
Proof.
  unfold n_batches_expr, estimate, truthy, floordiv.
  destruct size as [n|]; [|reflexivity].
  destruct (n =? 0); [reflexivity|]. simpl.
  unfold bind. now destruct (d =? 0).
Qed.

Lemma apply_unfold self x_ids x_feats batched_size size mean_only w :
  apply self x_ids x_feats batched_size size mean_only w
  = bind (n_batches_expr size (effective_batch_size self batched_size))
         (inference_loop self mean_only
                         (batch_stream self x_ids x_feats batched_size)) w.
Proof.
  unfold apply, batch_stream, effective_batch_size, pre_batched, inference_loop.
  destruct (type_ self =? "mpn")%string; simpl;
    [|destruct (truthy batched_size)]; unfold bind;
    match goal with
    | |- context [n_batches_expr ?sz ?d w] =>
        destruct (n_batches_expr sz d w) as [[n|e] w']
    end; destruct mean_only; reflexivity.
Qed.

Lemma effective_batch_size_nonzero self batched_size :
  test_batch_size self <> 0 -> effective_batch_size self batched_size <> 0.
Proof.
  unfold effective_batch_size, pre_batched, truthy. intros Hn.
  destruct (negb (type_ self =? "mpn")%string); simpl; [|assumption].
  destruct batched_size as [b|]; [|assumption].
  destruct (Z.eqb_spec b 0); simpl; assumption.
Qed.

Lemma estimate_runs size d w :
  d <> 0 -> @n_batches_expr A E S size d w = (Ok (estimate size d), w).
Proof.
  intros Hd. rewrite n_batches_expr_run.
  destruct (Z.eqb_spec d 0); [contradiction|]. now rewrite andb_false_r.
Qed.

Lemma apply_zero_division self x_ids x_feats batched_size size mean_only w :
  truthy size = true ->
  effective_batch_size self batched_size = 0 ->
  apply self x_ids x_feats batched_size size mean_only w
  = (Raise ZeroDivisionError, w).
Proof.
  intros Hs Hd. rewrite apply_unfold. unfold bind.
  now rewrite n_batches_expr_run, Hs, Hd.
Qed.

Lemma apply_no_estimate self x_ids x_feats batched_size size mean_only w :
  truthy size = false ->
  apply self x_ids x_feats batched_size size mean_only w
  = inference_loop self mean_only
                   (batch_stream self x_ids x_feats batched_size) None w.
Proof.
  intros Hs. rewrite apply_unfold. unfold bind.
  rewrite n_batches_expr_run, Hs. simpl.
  destruct size as [n|]; [|reflexivity].
  unfold estimate. simpl in Hs. now destruct (n =? 0).
Qed.

Lemma apply_returns self x_ids x_feats batched_size size mean_only w outs s' :
  effective_batch_size self batched_size <> 0 ->
  answers (predict self mean_only) (backend w)
          (batch_stream self x_ids x_feats batched_size) outs s' ->
  apply self x_ids x_feats batched_size size mean_only w
  = (Ok (concat (map fst outs), concat (map snd outs)),
     World s'
           (calls w ++ map (pair (method_of mean_only))
                           (batch_stream self x_ids x_feats batched_size))
           (progress w
            ++ [estimate size (effective_batch_size self batched_size)])).
Proof.
  intros Hd Hans. rewrite apply_unfold. unfold bind.
  rewrite estimate_runs by assumption.
  now apply inference_loop_returns.
Qed.

Lemma apply_fails self x_ids x_feats batched_size size mean_only w
      pre b post outs s1 e s2 :
  effective_batch_size self batched_size <> 0 ->
  batch_stream self x_ids x_feats batched_size = pre ++ b :: post ->
  answers (predict self mean_only) (backend w) pre outs s1 ->
  predict self mean_only b s1 = (inl e, s2) ->
  apply self x_ids x_feats batched_size size mean_only w
  = (Raise (PredictionError e),
     World s2 (calls w ++ map (pair (method_of mean_only)) (pre ++ [b]))
           (progress w
            ++ [estimate size (effective_batch_size self batched_size)])).
Proof.
  intros Hd Hst Hans Hb. rewrite apply_unfold. unfold bind.
  rewrite estimate_runs by assumption. rewrite Hst.
  now apply inference_loop_fails with (outs := outs) (s1 := s1).
Qed.

(** The three ways a run of the loop part can end, whatever the estimate. *)
Lemma inference_loop_cases self mean_only xs n_batches w :
  (exists outs s',
      answers (predict self mean_only) (backend w) xs outs s' /\
      inference_loop self mean_only xs n_batches w
      = (Ok (concat (map fst outs), concat (map snd outs)),
         World s' (calls w ++ map (pair (method_of mean_only)) xs)
               (progress w ++ [n_batches]))) \/
  (exists pre b post outs s1 e s2,
      xs = pre ++ b :: post /\
      answers (predict self mean_only) (backend w) pre outs s1 /\
      predict self mean_only b s1 = (inl e, s2) /\
      inference_loop self mean_only xs n_batches w
      = (Raise (PredictionError e),
         World s2 (calls w ++ map (pair (method_of mean_only)) (pre ++ [b]))
               (progress w ++ [n_batches]))).
Proof.
  destruct (answers_or_fails (predict self mean_only) xs (backend w))
    as [(outs & s' & Hans)|(pre & b & post & outs & s1 & e & s2 & -> & Hans & Hb)].
  - left. exists outs, s'. split; [assumption|].
    now apply inference_loop_returns.
  - right. exists pre, b, post, outs, s1, e, s2. repeat split; try assumption.
    now apply inference_loop_fails with (outs := outs) (s1 := s1).
Qed.

(** The loop never looks at the bar: two runs that differ in the total shown
    agree on the result, the backend state and the calls made. *)
Lemma inference_loop_total_irrelevant self mean_only xs n1 n2 w :
  let r1 := inference_loop self mean_only xs n1 w in
  let r2 := inference_loop self mean_only xs n2 w in
  fst r1 = fst r2 /\ backend (snd r1) = backend (snd r2) /\
  calls (snd r1) = calls (snd r2).
Proof.
  destruct (answers_or_fails (predict self mean_only) xs (backend w))
    as [(outs & s' & Hans)|(pre & b & post & outs & s1 & e & s2 & -> & Hans & Hb)];
    cbv zeta.
  - erewrite !inference_loop_returns by eassumption. now repeat split.
  - erewrite !inference_loop_fails by eassumption. now repeat split.
Qed.

(** The calls a run of the loop makes are on an initial segment of the
    stream, in order, one call per element; a run that returns has called
    on every element. *)
Lemma inference_loop_calls self mean_only xs n_batches w :
  let r := inference_loop self mean_only xs n_batches w in
  (exists j, calls (snd r)
             = calls w ++ map (pair (method_of mean_only)) (firstn j xs)) /\
  (forall v, fst r = Ok v ->
             calls (snd r) = calls w ++ map (pair (method_of mean_only)) xs).
Proof.
  cbv zeta.
  destruct (inference_loop_cases self mean_only xs n_batches w)
    as [(outs & s' & _ & ->)|(pre & b & post & outs & s1 & e & s2 & -> & _ & _ & ->)];
    simpl.
  - split; [|reflexivity]. exists (length xs). now rewrite firstn_all.
  - split; [|discriminate]. exists (length (pre ++ [b])).
    replace (pre ++ b :: post) with ((pre ++ [b]) ++ post)
      by now rewrite <- app_assoc.
    now rewrite firstn_app, firstn_all, Nat.sub_diag, firstn_O, app_nil_r.
Qed.

Lemma inference_loop_progress self mean_only xs n_batches w :
  progress (snd (inference_loop self mean_only xs n_batches w))
  = progress w ++ [n_batches].
Proof.
  destruct (inference_loop_cases self mean_only xs n_batches w)
    as [(outs & s' & _ & ->)|(pre & b & post & outs & s1 & e & s2 & _ & _ & _ & ->)];
    reflexivity.
Qed.

(** The calls of a run of [apply], whatever its outcome. *)
Lemma apply_calls self x_ids x_feats batched_size size mean_only w :
  let r := apply self x_ids x_feats batched_size size mean_only w in
  let xs := batch_stream self x_ids x_feats batched_size in
  (exists j, calls (snd r)
             = calls w ++ map (pair (method_of mean_only)) (firstn j xs)) /\
  (forall v, fst r = Ok v ->
             calls (snd r) = calls w ++ map (pair (method_of mean_only)) xs).
Proof.
  cbv zeta. rewrite apply_unfold. unfold bind. rewrite n_batches_expr_run.
  destruct (truthy size && _).
  - split; [|discriminate]. exists 0%nat. simpl. now rewrite app_nil_r.
  - apply inference_loop_calls.
Qed.

Lemma direct_identifier_eqb self :
  direct_identifier self -> (type_ self =? "mpn")%string = true.
Proof. unfold direct_identifier. intros ->. reflexivity. Qed.

Lemma feature_based_eqb self :
  type_ self <> "mpn"%string -> (type_ self =? "mpn")%string = false.
Proof. intros H. now apply String.eqb_neq. Qed.

End DriverFacts.

(** ** Streams and the inputs behind them *)

Section StreamFacts.
Context {A V E S : Type}.
Implicit Types (self : Model A V E S) (w : world A S) (s : S).
Implicit Types (xs x_ids x_feats inputs : list (pyval A)).
Implicit Types (bss : list (list (pyval A))).

Lemma unbatch_batches xs inputs :
  unbatch xs = Some inputs ->
  exists bss, xs = map (@PyList A) bss /\ concat bss = inputs.
Proof.
  revert inputs. induction xs as [|[a|l] xs IH]; simpl; intros inputs H.
  - injection H as <-. now exists [].
  - discriminate.
  - destruct (unbatch xs) as [r|]; [|discriminate].
    injection H as <-. destruct (IH r eq_refl) as (bss & -> & <-).
    now exists (l :: bss).
Qed.

Lemma unbatch_map_PyList bss : unbatch (map (@PyList A) bss) = Some (concat bss).
Proof. induction bss as [|l bss IH]; simpl; [reflexivity|now rewrite IH]. Qed.

(** The stream iterated over is a stream of batches whose concatenation is
    the sequence of individual inputs. *)
Lemma batch_stream_inputs self x_ids x_feats batched_size inputs :
  0 < test_batch_size self ->
  individual_inputs self x_ids x_feats batched_size = Some inputs ->
  exists bss,
    batch_stream self x_ids x_feats batched_size = map (@PyList A) bss /\
    concat bss = inputs.
Proof.
  unfold individual_inputs, batch_stream. intros Hn.
  destruct (type_ self =? "mpn")%string; [|destruct (truthy batched_size)].
  - intros [= <-]. eexists. split; [reflexivity|now apply batches_concat].
  - apply unbatch_batches.
  - intros [= <-]. eexists. split; [reflexivity|now apply batches_concat].
Qed.

Lemma concat_aligned_length {T U} (ls : list (list T)) (os : list (list U)) :
  Forall2 (fun l o => length o = length l) ls os ->
  length (concat os) = length (concat ls).
Proof.
  induction 1 as [|l o ls os Hlo _ IH]; simpl; [reflexivity|].
  rewrite !length_app. congruence.
Qed.

Lemma one_mean_per_input_answers self :
  one_mean_per_input self ->
  forall bss s, exists outs s',
    answers (get_means self) s (map (@PyList A) bss) outs s' /\
    Forall2 (fun l o => length o = length l) bss outs.
Proof.
  intros Hone. induction bss as [|l bss IH]; intro s.
  - exists [], s. split; constructor.
  - destruct (Hone l s) as (ms & s1 & Hg & Hlen).
    destruct (IH s1) as (outs & s' & Hans & Hall).
    exists (ms :: outs), s'. split; [econstructor; eassumption|now constructor].
Qed.

Lemma one_mean_and_var_per_input_answers self :
  one_mean_and_var_per_input self ->
  forall bss s, exists outs s',
    answers (get_means_and_vars self) s (map (@PyList A) bss) outs s' /\
    Forall2 (fun l o => length (fst o) = length l /\ length (snd o) = length l)
            bss outs.
Proof.
  intros Hone. induction bss as [|l bss IH]; intro s.
  - exists [], s. split; constructor.
  - destruct (Hone l s) as (ms & vs & s1 & Hg & Hlm & Hlv).
    destruct (IH s1) as (outs & s' & Hans & Hall).
    exists ((ms, vs) :: outs), s'.
    split; [econstructor; eassumption|constructor; [now split|assumption]].
Qed.

Lemma pointwise_answers self (mu var : pyval A -> V) mean_only :
  pointwise_backend self mu var ->
  forall bss s, exists s',
    answers (predict self mean_only) s (map (@PyList A) bss)
            (map (fun l => (map mu l, if mean_only then [] else map var l)) bss)
            s'.
Proof.
  intros [Hm Hv]. induction bss as [|l bss IH]; intro s; simpl.
  - exists s. constructor.
  - destruct mean_only.
    + pose proof (Hm l s) as Hl.
      destruct (get_means self (PyList l) s) as [r s1] eqn:Hg. simpl in Hl.
      destruct (IH s1) as (s' & Hans). exists s'.
      econstructor; [|exact Hans]. unfold predict. now rewrite Hg, Hl.
    + pose proof (Hv l s) as Hl.
      destruct (get_means_and_vars self (PyList l) s) as [r s1] eqn:Hg.
      simpl in Hl. destruct (IH s1) as (s' & Hans). exists s'.
      econstructor; [|exact Hans]. unfold predict. now rewrite Hg, Hl.
Qed.

(** X11.  An empty stream: for a positive [test_batch_size], [apply] returns
    two empty lists, makes no prediction call and leaves the backend as it
    was. *)
Lemma apply_empty_stream self x_ids x_feats batched_size size mean_only w :
  0 < test_batch_size self ->
  (if (type_ self =? "mpn")%string then x_ids else x_feats) = [] ->
  apply self x_ids x_feats batched_size size mean_only w
  = (Ok ([], []),
     World (backend w) (calls w)
           (progress w
            ++ [estimate size (effective_batch_size self batched_size)])).
Proof.
  intros Hn Hxs.
  assert (Hst : batch_stream self x_ids x_feats batched_size = []).
  { unfold batch_stream.
    destruct (type_ self =? "mpn")%string; [|destruct (truthy batched_size)];
      rewrite Hxs; try reflexivity; now rewrite batches_nil. }
  erewrite apply_returns with (outs := []);
    [|apply effective_batch_size_nonzero; lia|rewrite Hst; constructor].
  rewrite Hst. simpl. now rewrite app_nil_r.
Qed.

End StreamFacts.

(** * The claims *)

Section Lengths.
Context {A V E S : Type}.
Implicit Types (self : Model A V E S) (w : world A S).
Implicit Types (x_ids x_feats inputs : list (pyval A)).
Implicit Types (batched_size size : option Z).

(** C1.  With a backend whose [get_means] returns one mean per input of the
    batch it is given, [apply] in mean-only mode on a stream of [N]
    individual inputs returns a pair: the means are the answers of the
    backend to the successive batches, put end to end, each answer as long
    as its batch, the batches put end to end being the inputs; so there are
    exactly [N] means, the i-th for the i-th input.  The variances are
    empty. *)
Theorem apply_mean_only_one_mean_per_input
        self x_ids x_feats batched_size size w inputs :
  0 < test_batch_size self ->
  one_mean_per_input self ->
  individual_inputs self x_ids x_feats batched_size = Some inputs ->
  exists bss outs w',
    apply self x_ids x_feats batched_size size true w
    = (Ok (concat outs, []), w') /\
    length (concat outs) = length inputs /\
    concat bss = inputs /\
    answers (get_means self) (backend w) (map (@PyList A) bss) outs (backend w') /\
    Forall2 (fun l o => length o = length l) bss outs.
Proof.
  intros Hn Hone Hin.
  destruct (batch_stream_inputs _ _ _ _ Hn Hin) as (bss & Hst & Hcat).
  destruct (one_mean_per_input_answers Hone bss (backend w))
    as (outs & s' & Hans & Hall).
  pose proof Hans as Hp. apply answers_get_means_predict in Hp.
  rewrite <- Hst in Hp.
  exists bss, outs. eexists. split; [|split; [|split; [|split]]].
  - erewrite apply_returns;
      [|apply effective_batch_size_nonzero; lia|exact Hp].
    rewrite !map_map. simpl. rewrite map_id.
    replace (concat (map (fun _ : list V => @nil V) outs)) with (@nil V);
      [reflexivity|].
    clear. induction outs; simpl; auto.
  - rewrite <- Hcat. now apply concat_aligned_length.
  - exact Hcat.
  - exact Hans.
  - exact Hall.
Qed.

(** C2.  With a backend whose [get_means_and_vars] returns one mean and one
    variance per input of the batch, [apply] with [mean_only] false on a
    stream of [N] individual inputs returns means and variances that are the
    two components of the backend's answers to the successive batches, put
    end to end; each answer holds as many means and as many variances as its
    batch has inputs, so both lists have length [N] and position i of each
    belongs to input i. *)
Theorem apply_means_and_vars_per_input
        self x_ids x_feats batched_size size w inputs :
  0 < test_batch_size self ->
  one_mean_and_var_per_input self ->
  individual_inputs self x_ids x_feats batched_size = Some inputs ->
  exists bss outs w',
    apply self x_ids x_feats batched_size size false w
    = (Ok (concat (map fst outs), concat (map snd outs)), w') /\
    length (concat (map fst outs)) = length inputs /\
    length (concat (map snd outs)) = length inputs /\
    concat bss = inputs /\
    answers (get_means_and_vars self) (backend w) (map (@PyList A) bss) outs
            (backend w') /\
    Forall2 (fun l o => length (fst o) = length l /\ length (snd o) = length l)
            bss outs.
Proof.
  intros Hn Hone Hin.
  destruct (batch_stream_inputs _ _ _ _ Hn Hin) as (bss & Hst & Hcat).
  destruct (one_mean_and_var_per_input_answers Hone bss (backend w))
    as (outs & s' & Hans & Hall).
  assert (Hp : answers (predict self false) (backend w)
                       (batch_stream self x_ids x_feats batched_size) outs s')
    by (rewrite Hst; exact Hans).
  exists bss, outs. eexists. split; [|split; [|split; [|split; [|split]]]].
  - erewrite apply_returns;
      [reflexivity|apply effective_batch_size_nonzero; lia|exact Hp].
  - rewrite <- Hcat. apply concat_aligned_length.
    clear -Hall. induction Hall as [|l o ls os [Hm _] _ IH]; simpl;
      constructor; assumption.
  - rewrite <- Hcat. apply concat_aligned_length.
    clear -Hall. induction Hall as [|l o ls os [_ Hv] _ IH]; simpl;
      constructor; assumption.
  - exact Hcat.
  - exact Hans.
  - exact Hall.
Qed.

End Lengths.

(** The counting backend returns one mean, and one variance, per input. *)
Lemma counting_one_mean_per_input kind n :
  one_mean_per_input (__init__ (Examples.counting kind) n).
Proof.
  intros l s. exists (map Examples.mu l), (S s).
  split; [reflexivity|apply length_map].
Qed.

Lemma counting_one_mean_and_var_per_input kind n :
  one_mean_and_var_per_input (__init__ (Examples.counting kind) n).
Proof.
  intros l s. exists (map Examples.mu l), (map Examples.var l), (S s).
  repeat split; apply length_map.
Qed.

Example forest_run_mean_only :
  apply Examples.forest [] Examples.five None (Some 5) true Examples.w0
  = (Ok ([2; 4; 6; 8; 10], []),
     World 3%nat
           [(GetMeans, PyList (Examples.ids [1; 2]));
            (GetMeans, PyList (Examples.ids [3; 4]));
            (GetMeans, PyList (Examples.ids [5]))]
           [Some 3]).
Proof. reflexivity. Qed.

Example forest_run_pre_batched :
  apply Examples.forest [] Examples.five_by_3 (Some 3) (Some 5) false Examples.w0
  = (Ok ([2; 4; 6; 8; 10], [1; 4; 9; 16; 25]),
     World 2%nat
           [(GetMeansAndVars, PyList (Examples.ids [1; 2; 3]));
            (GetMeansAndVars, PyList (Examples.ids [4; 5]))]
           [Some 2]).
Proof. reflexivity. Qed.

Lemma apply_mean_only_one_mean_per_input_witness :
  0 < test_batch_size Examples.forest /\
  one_mean_per_input Examples.forest /\
  individual_inputs Examples.forest [] Examples.five None = Some Examples.five /\
  exists bss outs w',
    apply Examples.forest [] Examples.five None (Some 5) true Examples.w0
    = (Ok (concat outs, []), w') /\
    length (concat outs) = length Examples.five /\
    concat bss = Examples.five /\
    answers (get_means Examples.forest) (backend Examples.w0)
            (map (@PyList Z) bss) outs (backend w') /\
    Forall2 (fun l o => length o = length l) bss outs.
Proof.
  split; [reflexivity|].
  split; [apply counting_one_mean_per_input|].
  split; [reflexivity|].
  apply apply_mean_only_one_mean_per_input;
    [reflexivity|apply counting_one_mean_per_input|reflexivity].
Defined.

Lemma apply_means_and_vars_per_input_witness :
  0 < test_batch_size Examples.forest /\
  one_mean_and_var_per_input Examples.forest /\
  individual_inputs Examples.forest [] Examples.five_by_3 (Some 3)
  = Some Examples.five /\
  exists bss outs w',
    apply Examples.forest [] Examples.five_by_3 (Some 3) (Some 5) false Examples.w0
    = (Ok (concat (map fst outs), concat (map snd outs)), w') /\
    length (concat (map fst outs)) = length Examples.five /\
    length (concat (map snd outs)) = length Examples.five /\
    concat bss = Examples.five /\
    answers (get_means_and_vars Examples.forest) (backend Examples.w0)
            (map (@PyList Z) bss) outs (backend w') /\
    Forall2 (fun l o => length (fst o) = length l /\ length (snd o) = length l)
            bss outs.
Proof.
  split; [reflexivity|].
  split; [apply counting_one_mean_and_var_per_input|].
  split; [reflexivity|].
  apply apply_means_and_vars_per_input;
    [reflexivity|apply counting_one_mean_and_var_per_input|reflexivity].
Defined.

Section Traversal.
Context {A V E S : Type}.
Implicit Types (self : Model A V E S) (w : world A S).
Implicit Types (x_ids x_feats : list (pyval A)).
Implicit Types (batched_size size : option Z) (mean_only : bool).

(** C3.  For a model of kind ['mpn'], a run of [apply] is the same whatever
    feature stream and whatever [batched_size] the caller passes; its
    prediction calls are made, in order, on the batches of [test_batch_size]
    identifiers cut from [x_ids] (all of them when the run returns, an
    initial segment of them otherwise); for a positive [test_batch_size]
    these batches are the consecutive slices of [x_ids]. *)
Theorem apply_direct_identifier
        self x_ids x_feats batched_size size mean_only w :
  direct_identifier self ->
  let r := apply self x_ids x_feats batched_size size mean_only w in
  let n := test_batch_size self in
  let bs := map (@PyList A) (batches x_ids n) in
  (forall x_feats' batched_size',
      apply self x_ids x_feats' batched_size' size mean_only w = r) /\
  (exists j, calls (snd r)
             = calls w ++ map (pair (method_of mean_only)) (firstn j bs)) /\
  (forall v, fst r = Ok v ->
             calls (snd r) = calls w ++ map (pair (method_of mean_only)) bs) /\
  (0 < n ->
   concat (batches x_ids n) = x_ids /\
   forall i, nth i (batches x_ids n) []
             = firstn (Z.to_nat n) (skipn (i * Z.to_nat n) x_ids)).
Proof.
  intros Hk. apply direct_identifier_eqb in Hk. cbv zeta.
  split; [|split; [|split]].
  - intros x_feats' batched_size'. unfold apply. now rewrite Hk.
  - pose proof (apply_calls self x_ids x_feats batched_size size mean_only w)
      as [Hj _].
    unfold batch_stream in Hj. now rewrite Hk in Hj.
  - pose proof (apply_calls self x_ids x_feats batched_size size mean_only w)
      as [_ Hall].
    unfold batch_stream in Hall. now rewrite Hk in Hall.
  - intros Hn. split; [now apply batches_concat|].
    intro i. now apply batches_nth.
Qed.

(** C4, as the code has it.  For a model that is not of kind ['mpn'] and a
    [batched_size] that is set to a non-zero value, the stream iterated over
    is the feature stream itself: the prediction calls are made on its
    elements as supplied, one call per element and in order (on all of them
    when the run returns, on an initial segment otherwise). *)
Theorem apply_pre_batched_as_supplied
        self x_ids x_feats b size mean_only w :
  type_ self <> "mpn"%string ->
  b <> 0 ->
  let r := apply self x_ids x_feats (Some b) size mean_only w in
  batch_stream self x_ids x_feats (Some b) = x_feats /\
  (exists j, calls (snd r)
             = calls w ++ map (pair (method_of mean_only)) (firstn j x_feats)) /\
  (forall v, fst r = Ok v ->
             calls (snd r)
             = calls w ++ map (pair (method_of mean_only)) x_feats).
Proof.
  intros Hk Hb. apply feature_based_eqb in Hk. cbv zeta.
  assert (Hst : batch_stream self x_ids x_feats (Some b) = x_feats).
  { unfold batch_stream, truthy. rewrite Hk.
    now destruct (Z.eqb_spec b 0). }
  split; [exact Hst|].
  pose proof (apply_calls self x_ids x_feats (Some b) size mean_only w) as H.
  cbv zeta in H. now rewrite Hst in H.
Qed.

(** C10.  For a model that is not of kind ['mpn'], [batched_size = 0] runs
    exactly as [batched_size = None]: the estimate divides by
    [test_batch_size] and the loop runs over the feature stream regrouped by
    [test_batch_size]. *)
Theorem apply_batched_size_zero_is_unset
        self x_ids x_feats size mean_only w :
  type_ self <> "mpn"%string ->
  apply self x_ids x_feats (Some 0) size mean_only w
  = apply self x_ids x_feats None size mean_only w /\
  apply self x_ids x_feats (Some 0) size mean_only w
  = bind (n_batches_expr size (test_batch_size self))
         (inference_loop self mean_only
            (map (@PyList A) (batches x_feats (test_batch_size self)))) w.
Proof.
  intros Hk. apply feature_based_eqb in Hk. split.
  - unfold apply. now rewrite Hk.
  - rewrite apply_unfold.
    unfold effective_batch_size, pre_batched, batch_stream. now rewrite Hk.
Qed.

End Traversal.

Lemma apply_direct_identifier_witness :
  direct_identifier Examples.network /\
  (forall x_feats' batched_size',
      apply Examples.network Examples.five x_feats' batched_size' (Some 5) true
            Examples.w0
      = apply Examples.network Examples.five Examples.five_by_3 (Some 3) (Some 5)
              true Examples.w0) /\
  calls (snd (apply Examples.network Examples.five Examples.five_by_3 (Some 3)
                    (Some 5) true Examples.w0))
  = [(GetMeans, PyList (Examples.ids [1; 2]));
     (GetMeans, PyList (Examples.ids [3; 4]));
     (GetMeans, PyList (Examples.ids [5]))].
Proof.
  split; [reflexivity|]. split; [|reflexivity].
  apply (@apply_direct_identifier _ _ _ _ Examples.network Examples.five
           Examples.five_by_3 (Some 3) (Some 5) true Examples.w0).
  reflexivity.
Defined.

Lemma apply_pre_batched_as_supplied_witness :
  type_ Examples.forest <> "mpn"%string /\
  3 <> 0 /\
  forall v,
    fst (apply Examples.forest [] Examples.five_by_3 (Some 3) None true Examples.w0)
    = Ok v ->
    calls (snd (apply Examples.forest [] Examples.five_by_3 (Some 3) None true
                      Examples.w0))
    = calls Examples.w0 ++ map (pair GetMeans) Examples.five_by_3.
Proof.
  split; [discriminate|]. split; [discriminate|].
  apply (@apply_pre_batched_as_supplied _ _ _ _ Examples.forest []
           Examples.five_by_3 3 None true Examples.w0);
    discriminate.
Defined.

(** C4 as stated fails when [batched_size] is set to [0]: the two batches the
    caller supplies are regrouped into one batch of two elements, and a single
    prediction call is made on it. *)
Lemma apply_pre_batched_size_zero_reslices :
  type_ Examples.forest <> "mpn"%string /\
  apply Examples.forest [] Examples.five_by_3 (Some 0) None true Examples.w0
  = (Ok ([0; 0], []),
     World 1%nat [(GetMeans, PyList Examples.five_by_3)] [None]) /\
  calls (snd (apply Examples.forest [] Examples.five_by_3 (Some 0) None true
                    Examples.w0))
  <> calls Examples.w0 ++ map (pair GetMeans) Examples.five_by_3.
Proof.
  split; [discriminate|]. split; [reflexivity|]. discriminate.
Qed.

Lemma apply_batched_size_zero_is_unset_witness :
  type_ Examples.forest <> "mpn"%string /\
  apply Examples.forest [] Examples.five (Some 0) (Some 5) true Examples.w0
  = apply Examples.forest [] Examples.five None (Some 5) true Examples.w0.
Proof.
  split; [discriminate|].
  apply (@apply_batched_size_zero_is_unset _ _ _ _ Examples.forest []
           Examples.five (Some 5) true Examples.w0).
  discriminate.
Defined.

Section Failure.
Context {A V E S : Type}.
Implicit Types (self : Model A V E S) (w : world A S).
Implicit Types (x_ids x_feats pre post : list (pyval A)) (b : pyval A).
Implicit Types (batched_size size : option Z) (mean_only : bool).

(** C5.  Let the stream of batches be [pre ++ b :: post], let the backend
    answer the batches of [pre] and fail with [e] on [b], the k-th batch
    ([k = length pre + 1]).  Then [apply] raises [e] and returns nothing;
    the prediction calls made are those on the first [k] batches, none on
    [post]; the backend is left as the failing call left it. *)
Theorem apply_fail_fast
        self x_ids x_feats batched_size size mean_only w
        pre b post outs s1 e s2 :
  0 < test_batch_size self ->
  batch_stream self x_ids x_feats batched_size = pre ++ b :: post ->
  answers (predict self mean_only) (backend w) pre outs s1 ->
  predict self mean_only b s1 = (inl e, s2) ->
  let r := apply self x_ids x_feats batched_size size mean_only w in
  fst r = Raise (PredictionError e) /\
  (forall v, fst r <> Ok v) /\
  backend (snd r) = s2 /\
  calls (snd r) = calls w ++ map (pair (method_of mean_only)) (pre ++ [b]).
Proof.
  intros Hn Hst Hans Hb. cbv zeta.
  erewrite apply_fails;
    [|apply effective_batch_size_nonzero; lia|exact Hst|exact Hans|exact Hb].
  simpl. repeat split. discriminate.
Qed.

End Failure.

Lemma apply_fail_fast_witness :
  0 < test_batch_size Examples.wary /\
  batch_stream Examples.wary [] Examples.five13 None
  = [PyList (Examples.ids [1; 2])] ++ PyList (Examples.ids [13; 4])
      :: [PyList (Examples.ids [5])] /\
  answers (predict Examples.wary false) (backend Examples.w0)
          [PyList (Examples.ids [1; 2])] [([2; 4], [1; 4])] 1%nat /\
  predict Examples.wary false (PyList (Examples.ids [13; 4])) 1%nat
  = (inl "thirteen"%string, 2%nat) /\
  fst (apply Examples.wary [] Examples.five13 None (Some 5) false Examples.w0)
  = Raise (PredictionError "thirteen"%string) /\
  (forall v, fst (apply Examples.wary [] Examples.five13 None (Some 5) false
                        Examples.w0) <> Ok v) /\
  backend (snd (apply Examples.wary [] Examples.five13 None (Some 5) false
                      Examples.w0)) = 2%nat /\
  calls (snd (apply Examples.wary [] Examples.five13 None (Some 5) false
                    Examples.w0))
  = calls Examples.w0
    ++ map (pair (method_of false))
           ([PyList (Examples.ids [1; 2])] ++ [PyList (Examples.ids [13; 4])]).
Proof.
  assert (Hans : answers (predict Examples.wary false) (backend Examples.w0)
                         [PyList (Examples.ids [1; 2])] [([2; 4], [1; 4])] 1%nat)
    by (econstructor; [reflexivity|constructor]).
  split; [reflexivity|]. split; [reflexivity|]. split; [exact Hans|].
  split; [reflexivity|].
  apply (@apply_fail_fast _ _ _ _ Examples.wary [] Examples.five13 None (Some 5)
           false Examples.w0 [PyList (Examples.ids [1; 2])]
           (PyList (Examples.ids [13; 4])) [PyList (Examples.ids [5])]
           [([2; 4], [1; 4])] 1%nat "thirteen"%string 2%nat);
    [reflexivity|reflexivity|exact Hans|reflexivity].
Defined.

Section Lossless.
Context {A V E S : Type}.
Implicit Types (self : Model A V E S) (w : world A S).
Implicit Types (x_ids x_feats inputs : list (pyval A)).
Implicit Types (batched_size size : option Z).

Lemma concat_map_fst_pointwise (mu var : pyval A -> V) (mean_only : bool)
      (bss : list (list (pyval A))) :
  concat (map fst (map (fun l => (map mu l,
                                  if mean_only then [] else map var l)) bss))
  = map mu (concat bss).
Proof.
  rewrite map_map. simpl. now rewrite concat_map.
Qed.

Lemma concat_map_snd_pointwise (mu var : pyval A -> V) (mean_only : bool)
      (bss : list (list (pyval A))) :
  concat (map snd (map (fun l => (map mu l,
                                  if mean_only then [] else map var l)) bss))
  = if mean_only then [] else map var (concat bss).
Proof.
  rewrite map_map. simpl. destruct mean_only.
  - induction bss; simpl; auto.
  - now rewrite concat_map.
Qed.

(** C6.  With a backend whose means and variances are functions [mu] and
    [var] of the individual input, [apply] returns, in either mode, what one
    prediction call on the whole sequence of inputs returns.  When the
    stream is not taken as pre-batched, the prediction calls [apply] makes
    are made, in order, on batches that cut the inputs into consecutive,
    non-overlapping slices of [test_batch_size] inputs: put end to end the
    batches called on give the inputs back, the i-th is the slice starting at
    [i * test_batch_size], none is empty or longer than [test_batch_size],
    and all but the last have exactly [test_batch_size] inputs. *)
Theorem apply_batching_lossless
        self (mu var : pyval A -> V) x_ids x_feats batched_size size w inputs :
  0 < test_batch_size self ->
  pointwise_backend self mu var ->
  individual_inputs self x_ids x_feats batched_size = Some inputs ->
  (exists means w',
      apply self x_ids x_feats batched_size size true w = (Ok (means, []), w') /\
      (forall s, fst (get_means self (PyList inputs) s) = inr means) /\
      (pre_batched self batched_size = false ->
       exists bs,
         calls w' = calls w ++ map (fun l => (GetMeans, PyList l)) bs /\
         consecutive_batches (test_batch_size self) inputs bs)) /\
  (exists means variances w',
      apply self x_ids x_feats batched_size size false w
      = (Ok (means, variances), w') /\
      (forall s, fst (get_means_and_vars self (PyList inputs) s)
                 = inr (means, variances)) /\
      (pre_batched self batched_size = false ->
       exists bs,
         calls w' = calls w ++ map (fun l => (GetMeansAndVars, PyList l)) bs /\
         consecutive_batches (test_batch_size self) inputs bs)).
Proof.
  intros Hn Hpw Hin.
  destruct (batch_stream_inputs _ _ _ _ Hn Hin) as (bss & Hst & Hcat).
  assert (Hd : effective_batch_size self batched_size <> 0)
    by (apply effective_batch_size_nonzero; lia).
  assert (Hxs : pre_batched self batched_size = false ->
                batch_stream self x_ids x_feats batched_size
                = map (@PyList A) (batches inputs (test_batch_size self))).
  { revert Hin. unfold individual_inputs, batch_stream, pre_batched.
    destruct (type_ self =? "mpn")%string; simpl.
    - now intros [= <-] _.
    - intros Hin Ht. rewrite Ht in Hin |- *. now injection Hin as <-. }
  split.
  - destruct (pointwise_answers true Hpw bss (backend w)) as (s' & Hans).
    rewrite <- Hst in Hans.
    exists (map mu inputs). eexists. split; [|split].
    + erewrite apply_returns; [|exact Hd|exact Hans].
      rewrite (concat_map_fst_pointwise mu var true bss),
        (concat_map_snd_pointwise mu var true bss), Hcat.
      reflexivity.
    + apply Hpw.
    + intros Hpre. exists (batches inputs (test_batch_size self)).
      split; [|now apply batches_consecutive].
      cbn [calls]. now rewrite (Hxs Hpre), map_map.
  - destruct (pointwise_answers false Hpw bss (backend w)) as (s' & Hans).
    rewrite <- Hst in Hans.
    exists (map mu inputs), (map var inputs). eexists. split; [|split].
    + erewrite apply_returns; [|exact Hd|exact Hans].
      rewrite (concat_map_fst_pointwise mu var false bss),
        (concat_map_snd_pointwise mu var false bss), Hcat.
      reflexivity.
    + apply Hpw.
    + intros Hpre. exists (batches inputs (test_batch_size self)).
      split; [|now apply batches_consecutive].
      cbn [calls]. now rewrite (Hxs Hpre), map_map.
Qed.

End Lossless.

Lemma counting_pointwise kind n :
  pointwise_backend (__init__ (Examples.counting kind) n) Examples.mu Examples.var.
Proof. split; intros l s; reflexivity. Qed.

Lemma apply_batching_lossless_witness :
  0 < test_batch_size Examples.forest /\
  pointwise_backend Examples.forest Examples.mu Examples.var /\
  individual_inputs Examples.forest [] Examples.five None = Some Examples.five /\
  exists means w',
    apply Examples.forest [] Examples.five None (Some 5) true Examples.w0
    = (Ok (means, []), w') /\
    (forall s, fst (get_means Examples.forest (PyList Examples.five) s)
               = inr means) /\
    (pre_batched Examples.forest None = false ->
     exists bs,
       calls w' = calls Examples.w0 ++ map (fun l => (GetMeans, PyList l)) bs /\
       consecutive_batches (test_batch_size Examples.forest) Examples.five bs).
Proof.
  split; [reflexivity|]. split; [apply counting_pointwise|].
  split; [reflexivity|].
  exact (proj1 (@apply_batching_lossless _ _ _ _ Examples.forest Examples.mu
                  Examples.var [] Examples.five None (Some 5) Examples.w0
                  Examples.five eq_refl (counting_pointwise "rf" 2) eq_refl)).
Defined.

Section Progress.
Context {A V E S : Type}.
Implicit Types (self : Model A V E S) (w : world A S).
Implicit Types (x_ids x_feats : list (pyval A)).
Implicit Types (batched_size size : option Z) (mean_only : bool).

(** C7, as the code has it.  The divisor [d] of the estimate is
    [batched_size] when the model is not of kind ['mpn'] and [batched_size]
    is set to a non-zero value, [test_batch_size] otherwise.  For a [size]
    that is known and non-zero, and [d] non-zero, the bar is given the total
    [size // d + 1]; for a [size] that is unknown or zero the bar is given
    no total; for [size = 101] and [d = 50] the total is 3. *)
Theorem progress_estimate self x_ids x_feats batched_size size mean_only w :
  let shown :=
    progress (snd (apply self x_ids x_feats batched_size size mean_only w)) in
  let d := effective_batch_size self batched_size in
  (forall b, type_ self <> "mpn"%string -> batched_size = Some b -> b <> 0 ->
             d = b) /\
  (type_ self = "mpn"%string \/ batched_size = None \/ batched_size = Some 0 ->
   d = test_batch_size self) /\
  (forall t, size = Some t -> t <> 0 -> d <> 0 ->
             shown = progress w ++ [Some (t / d + 1)]) /\
  (size = None \/ size = Some 0 -> shown = progress w ++ [None]) /\
  (size = Some 101 -> d = 50 -> shown = progress w ++ [Some 3]).
Proof.
  cbv zeta.
  assert (Hshown : forall t, size = Some t -> t <> 0 ->
            effective_batch_size self batched_size <> 0 ->
            progress (snd (apply self x_ids x_feats batched_size size
                                 mean_only w))
            = progress w
              ++ [Some (t / effective_batch_size self batched_size + 1)]).
  { intros t -> Ht Hd. rewrite apply_unfold. unfold bind.
    rewrite estimate_runs by assumption.
    rewrite inference_loop_progress. unfold estimate.
    now destruct (Z.eqb_spec t 0). }
  split; [|split; [|split; [|split]]].
  - intros b Hk -> Hb. apply feature_based_eqb in Hk.
    unfold effective_batch_size, pre_batched, truthy. rewrite Hk.
    now destruct (Z.eqb_spec b 0).
  - unfold effective_batch_size, pre_batched.
    intros [Hk|[->| ->]]; [|now rewrite andb_false_r..].
    now rewrite (direct_identifier_eqb Hk).
  - exact Hshown.
  - intros Hs. rewrite apply_no_estimate by (now destruct Hs as [-> | ->]).
    apply inference_loop_progress.
  - intros Hs Hd. rewrite (Hshown 101 Hs) by (rewrite ?Hd; discriminate).
    now rewrite Hd.
Qed.

(** C8.  Two runs of [apply] that differ in [size] alone: when both return,
    they return the same pair and leave the same backend state and calls;
    and for a positive [test_batch_size] they end the same way altogether
    (both return that pair or both raise the same error), so that only the
    total given to the bar depends on [size]. *)
Theorem apply_size_irrelevant
        self x_ids x_feats batched_size size1 size2 mean_only w :
  let r1 := apply self x_ids x_feats batched_size size1 mean_only w in
  let r2 := apply self x_ids x_feats batched_size size2 mean_only w in
  (forall v1 v2, fst r1 = Ok v1 -> fst r2 = Ok v2 ->
                 v1 = v2 /\ backend (snd r1) = backend (snd r2) /\
                 calls (snd r1) = calls (snd r2)) /\
  (0 < test_batch_size self ->
   fst r1 = fst r2 /\ backend (snd r1) = backend (snd r2) /\
   calls (snd r1) = calls (snd r2)).
Proof.
  cbv zeta. rewrite !apply_unfold. unfold bind. split.
  - rewrite !n_batches_expr_run. intros v1 v2.
    destruct (truthy size1 && _); [discriminate|].
    destruct (truthy size2 && _); [discriminate|].
    destruct (inference_loop_total_irrelevant self mean_only
                (batch_stream self x_ids x_feats batched_size)
                (estimate size1 (effective_batch_size self batched_size))
                (estimate size2 (effective_batch_size self batched_size)) w)
      as (Hr & Hb & Hc).
    intros H1 H2. rewrite H1, H2 in Hr. injection Hr as <-. now repeat split.
  - intros Hn.
    rewrite !estimate_runs by (apply effective_batch_size_nonzero; lia).
    apply inference_loop_total_irrelevant.
Qed.

End Progress.

Lemma progress_estimate_witness :
  progress (snd (apply Examples.forest50 [] Examples.five None (Some 101) true
                       Examples.w0))
  = progress Examples.w0 ++ [Some 3].
Proof.
  apply (@progress_estimate _ _ _ _ Examples.forest50 [] Examples.five None
           (Some 101) true Examples.w0); reflexivity.
Defined.

(** C7 as stated fails for a total count that is known to be zero: the bar
    gets no total, where [0 // 50 + 1] is 1. *)
Lemma progress_estimate_known_zero_total :
  progress (snd (apply Examples.forest50 [] [] None (Some 0) true Examples.w0))
  = [None] /\
  @None Z <> Some (0 / test_batch_size Examples.forest50 + 1).
Proof. split; [reflexivity|discriminate]. Qed.

Lemma apply_size_irrelevant_witness :
  0 < test_batch_size Examples.wary /\
  fst (apply Examples.wary [] Examples.five13 None (Some 5) true Examples.w0)
  = fst (apply Examples.wary [] Examples.five13 None None true Examples.w0) /\
  backend (snd (apply Examples.wary [] Examples.five13 None (Some 5) true
                      Examples.w0))
  = backend (snd (apply Examples.wary [] Examples.five13 None None true
                        Examples.w0)) /\
  calls (snd (apply Examples.wary [] Examples.five13 None (Some 5) true
                    Examples.w0))
  = calls (snd (apply Examples.wary [] Examples.five13 None None true
                      Examples.w0)).
Proof.
  split; [reflexivity|].
  apply (@apply_size_irrelevant _ _ _ _ Examples.wary [] Examples.five13 None
           (Some 5) None true Examples.w0).
  reflexivity.
Defined.

Section Construction.
Context {A V E S : Type}.
Implicit Types (cls : Backend A V E S) (w : world A S).
Implicit Types (x_ids x_feats : list (pyval A)).
Implicit Types (batched_size size : option Z) (mean_only : bool).

(** C9, as the code has it.  [__init__] stores the [test_batch_size] it is
    given, unchecked: the instance has a positive [test_batch_size] exactly
    when the caller passes one.  [apply] relies on it where it re-batches:
    on an instance built with 0, a run that does not take the stream as
    pre-batched and is given a non-zero [size] raises [ZeroDivisionError]
    before any prediction call. *)
Theorem init_test_batch_size cls n :
  test_batch_size (__init__ cls n) = n /\
  (0 < n -> 0 < test_batch_size (__init__ cls n)) /\
  (n = 0 ->
   forall x_ids x_feats batched_size size mean_only w,
     pre_batched (__init__ cls n) batched_size = false ->
     truthy size = true ->
     apply (__init__ cls n) x_ids x_feats batched_size size mean_only w
     = (Raise ZeroDivisionError, w)).
Proof.
  split; [reflexivity|]. split; [trivial|].
  intros -> x_ids x_feats batched_size size mean_only w Hpre Hs.
  apply apply_zero_division; [assumption|].
  unfold effective_batch_size. now rewrite Hpre.
Qed.

End Construction.

Lemma init_test_batch_size_witness :
  0 < 2 /\ 0 < test_batch_size (__init__ (Examples.counting "rf") 2).
Proof.
  split; [reflexivity|].
  apply (@init_test_batch_size _ _ _ _ (Examples.counting "rf") 2).
  reflexivity.
Defined.

(** C9 as stated fails: an instance can be built with [test_batch_size = 0]. *)
Lemma init_accepts_zero_batch_size :
  test_batch_size (__init__ (Examples.counting "rf") 0) = 0 /\
  ~ 0 < test_batch_size (__init__ (Examples.counting "rf") 0).
Proof. split; [reflexivity|]. simpl. lia. Qed.


(** * Further properties of [apply] *)

(** ** How the batches add up *)

Section BatchesArithmetic.
Context {X : Type}.
Implicit Types (xs ys : list X) (k m : nat).

Lemma chunks_length k xs :
  length (chunks k xs) = ((length xs + k) / Datatypes.S k)%nat.
Proof.
  funelim (chunks k xs); simp chunks.
  - simpl length at 2. symmetry. apply Nat.div_small. lia.
  - cbn [length]. rewrite H, length_skipn.
    destruct (Nat.le_gt_cases k (length xs)) as [Hle|Hgt].
    + replace (Datatypes.S (length xs) + k)%nat
        with ((length xs - k + k) + 1 * Datatypes.S k)%nat by lia.
      rewrite Nat.div_add by lia. lia.
    + replace (Datatypes.S (length xs) + k)%nat
        with (length xs + 1 * Datatypes.S k)%nat by lia.
      rewrite Nat.div_add by lia.
      rewrite !Nat.div_small by lia. reflexivity.
Qed.

Lemma chunks_app k m xs ys :
  length xs = (m * Datatypes.S k)%nat ->
  chunks k (xs ++ ys) = chunks k xs ++ chunks k ys.
Proof.
  revert xs. induction m as [|m IH]; intros xs Hlen.
  - destruct xs; [reflexivity|discriminate].
  - destruct xs as [|x t]; [discriminate|].
    simpl in Hlen. injection Hlen as Hlen.
    cbn [app]. simp chunks. cbn [app].
    rewrite firstn_app, skipn_app.
    replace (k - length t)%nat with 0%nat by lia.
    rewrite firstn_O, skipn_O, app_nil_r. f_equal.
    apply IH. rewrite length_skipn. lia.
Qed.

Lemma batches_length xs n :
  0 < n ->
  Z.of_nat (length (batches xs n)) = (Z.of_nat (length xs) + n - 1) / n.
Proof.
  destruct n as [|p|p]; try lia. intros _. unfold batches.
  rewrite chunks_length, Nat2Z.inj_div, Nat2Z.inj_add.
  f_equal; lia.
Qed.

Lemma batches_app xs ys n :
  0 < n ->
  Z.of_nat (length xs) mod n = 0 ->
  batches (xs ++ ys) n = batches xs n ++ batches ys n.
Proof.
  destruct n as [|p|p]; try lia. intros _ Hmod. unfold batches.
  apply chunks_app with (m := Z.to_nat (Z.of_nat (length xs) / Z.pos p)).
  apply Z.div_exact in Hmod; [|lia].
  apply Nat2Z.inj. rewrite Nat2Z.inj_mul, Z2Nat.id.
  - replace (Z.of_nat (Datatypes.S (Nat.pred (Pos.to_nat p)))) with (Z.pos p)
      by lia.
    rewrite Z.mul_comm. exact Hmod.
  - apply Z.div_pos; lia.
Qed.

(** Floor plus one against ceiling: equal unless the divisor divides. *)
Lemma floor_succ_vs_ceiling (t d : Z) :
  0 < d ->
  t / d + 1 = (t + d - 1) / d + (if t mod d =? 0 then 1 else 0).
Proof.
  intros Hd. pose proof (Z.div_mod t d ltac:(lia)) as Hdm.
  pose proof (Z.mod_pos_bound t d Hd) as Hb.
  destruct (Z.eqb_spec (t mod d) 0) as [Hz|Hnz].
  - rewrite (Z.div_unique (t + d - 1) d (t / d) (d - 1)); lia.
  - rewrite (Z.div_unique (t + d - 1) d (t / d + 1) (t mod d - 1)); lia.
Qed.

End BatchesArithmetic.

(** ** Outcomes of a run *)

Section Outcomes.
Context {A V E S : Type}.
Implicit Types (self : Model A V E S) (w : world A S) (s : S).
Implicit Types (xs x_ids x_feats : list (pyval A)) (b : pyval A).
Implicit Types (batched_size size : option Z) (mean_only : bool).

Lemma answers_app {R} (f : pyval A -> S -> (E + R) * S) s xs1 o1 s1 xs2 o2 s2 :
  answers f s xs1 o1 s1 ->
  answers f s1 xs2 o2 s2 ->
  answers f s (xs1 ++ xs2) (o1 ++ o2) s2.
Proof.
  induction 1 as [s|s b r s1 bs rs s3 Hf _ IH]; simpl; intro H2;
    [assumption|econstructor; eauto].
Qed.



Lemma apply_estimate_raises self x_ids x_feats batched_size size mean_only w :
  estimate_raises self batched_size size = true ->
  apply self x_ids x_feats batched_size size mean_only w
  = (Raise ZeroDivisionError, w).
Proof.
  unfold estimate_raises. intros H. apply andb_prop in H as [Hs Hd].
  apply Z.eqb_eq in Hd. now apply apply_zero_division.
Qed.

Lemma apply_estimated self x_ids x_feats batched_size size mean_only w :
  estimate_raises self batched_size size = false ->
  apply self x_ids x_feats batched_size size mean_only w
  = inference_loop self mean_only
                   (batch_stream self x_ids x_feats batched_size)
                   (estimate size (effective_batch_size self batched_size)) w.
Proof.
  unfold estimate_raises. intros H. rewrite apply_unfold. unfold bind.
  now rewrite n_batches_expr_run, H.
Qed.

Lemma apply_returns_inv self x_ids x_feats batched_size size mean_only w m v w' :
  apply self x_ids x_feats batched_size size mean_only w = (Ok (m, v), w') ->
  estimate_raises self batched_size size = false /\
  exists outs,
    answers (predict self mean_only) (backend w)
            (batch_stream self x_ids x_feats batched_size) outs (backend w') /\
    m = concat (map fst outs) /\ v = concat (map snd outs) /\
    calls w' = calls w ++ map (pair (method_of mean_only))
                              (batch_stream self x_ids x_feats batched_size) /\
    progress w'
    = progress w ++ [estimate size (effective_batch_size self batched_size)].
Proof.
  destruct (estimate_raises self batched_size size) eqn:Hz.
  - rewrite apply_estimate_raises by assumption. discriminate.
  - rewrite apply_estimated by assumption. intros Hrun. split; [reflexivity|].
    destruct (inference_loop_cases self mean_only
                (batch_stream self x_ids x_feats batched_size)
                (estimate size (effective_batch_size self batched_size)) w)
      as [(outs & s' & Hans & Heq)|(pre & b & post & outs & s1 & e & s2 & _ & _ & _ & Heq)];
      rewrite Heq in Hrun; [|discriminate].
    injection Hrun as <- <- <-. exists outs. now repeat split.
Qed.

Lemma apply_returns_gen self x_ids x_feats batched_size size mean_only w outs s' :
  estimate_raises self batched_size size = false ->
  answers (predict self mean_only) (backend w)
          (batch_stream self x_ids x_feats batched_size) outs s' ->
  apply self x_ids x_feats batched_size size mean_only w
  = (Ok (concat (map fst outs), concat (map snd outs)),
     World s'
           (calls w ++ map (pair (method_of mean_only))
                           (batch_stream self x_ids x_feats batched_size))
           (progress w
            ++ [estimate size (effective_batch_size self batched_size)])).
Proof.
  intros Hz Hans. rewrite apply_estimated by assumption.
  now apply inference_loop_returns.
Qed.

Lemma estimate_raises_false self batched_size size :
  estimate_raises self batched_size size = false <->
  (truthy size = true -> effective_batch_size self batched_size <> 0).
Proof.
  unfold estimate_raises. destruct (truthy size); simpl.
  - rewrite Z.eqb_neq. tauto.
  - split; [discriminate|reflexivity].
Qed.

(** X1.  A run of [apply] returns if and only if the estimate does not divide
    by zero and the backend answers every batch of the stream; the means and
    the variances returned are then the backend's answers put end to end as
    they came, whatever their lengths, and one call was made per batch. *)
Theorem apply_returns_iff
        self x_ids x_feats batched_size size mean_only w m v w' :
  apply self x_ids x_feats batched_size size mean_only w = (Ok (m, v), w') <->
  (truthy size = true -> effective_batch_size self batched_size <> 0) /\
  exists outs,
    answers (predict self mean_only) (backend w)
            (batch_stream self x_ids x_feats batched_size) outs (backend w') /\
    m = concat (map fst outs) /\ v = concat (map snd outs) /\
    calls w' = calls w ++ map (pair (method_of mean_only))
                              (batch_stream self x_ids x_feats batched_size) /\
    progress w'
    = progress w ++ [estimate size (effective_batch_size self batched_size)].
Proof.
  rewrite <- estimate_raises_false. split.
  - apply apply_returns_inv.
  - intros (Hz & outs & Hans & -> & -> & Hc & Hp).
    erewrite apply_returns_gen by eassumption.
    destruct w' as [s' c' p']. simpl in Hc, Hp. now subst.
Qed.

(** X2.  A run of [apply] raises a prediction error [e] if and only if the
    estimate does not divide by zero and the stream has a first batch on which
    the backend fails with [e], all earlier batches being answered; the calls
    made are those up to and including that batch. *)
Theorem apply_raises_iff
        self x_ids x_feats batched_size size mean_only w e w' :
  apply self x_ids x_feats batched_size size mean_only w
  = (Raise (PredictionError e), w') <->
  (truthy size = true -> effective_batch_size self batched_size <> 0) /\
  exists pre b post outs s1,
    batch_stream self x_ids x_feats batched_size = pre ++ b :: post /\
    answers (predict self mean_only) (backend w) pre outs s1 /\
    predict self mean_only b s1 = (inl e, backend w') /\
    calls w' = calls w ++ map (pair (method_of mean_only)) (pre ++ [b]) /\
    progress w'
    = progress w ++ [estimate size (effective_batch_size self batched_size)].
Proof.
  rewrite <- estimate_raises_false. split.
  - destruct (estimate_raises self batched_size size) eqn:Hz.
    + rewrite apply_estimate_raises by assumption. discriminate.
    + rewrite apply_estimated by assumption. intros Hrun. split; [reflexivity|].
      destruct (inference_loop_cases self mean_only
                  (batch_stream self x_ids x_feats batched_size)
                  (estimate size (effective_batch_size self batched_size)) w)
        as [(outs & s' & _ & Heq)|(pre & b & post & outs & s1 & e0 & s2 & Hst & Hans & Hb & Heq)];
        rewrite Heq in Hrun; [discriminate|].
      injection Hrun as <- <-. exists pre, b, post, outs, s1. now repeat split.
  - intros (Hz & pre & b & post & outs & s1 & Hst & Hans & Hb & Hc & Hp).
    rewrite apply_estimated by assumption. rewrite Hst.
    erewrite inference_loop_fails by eassumption.
    destruct w' as [s' c' p']. simpl in Hc, Hp. now subst.
Qed.


(** X4.  In mean-only mode a run that returns returns no variances, whatever
    the backend. *)
Theorem apply_mean_only_no_variances
        self x_ids x_feats batched_size size w m v w' :
  apply self x_ids x_feats batched_size size true w = (Ok (m, v), w') ->
  v = [].
Proof.
  intros Hrun. apply apply_returns_inv in Hrun
    as (_ & outs & Hans & _ & -> & _).
  now apply answers_predict_mean_only in Hans as [_ Hnil].
Qed.

(** X5.  The prediction calls of a run are all calls of the method of its
    mode: [get_means] alone in mean-only mode, [get_means_and_vars] alone
    otherwise. *)
Theorem apply_calls_of_mode
        self x_ids x_feats batched_size size mean_only w :
  exists new,
    calls (snd (apply self x_ids x_feats batched_size size mean_only w))
    = calls w ++ new /\
    Forall (fun c => fst c = method_of mean_only) new.
Proof.
  destruct (apply_calls self x_ids x_feats batched_size size mean_only w)
    as [[j Hj] _].
  eexists. split; [exact Hj|].
  apply Forall_forall. intros c Hin.
  apply in_map_iff in Hin as (b & <- & _). reflexivity.
Qed.

End Outcomes.

(** ** What a run does not look at *)

Section Independence.
Context {A V E S : Type}.
Implicit Types (self : Model A V E S) (cls : Backend A V E S) (w : world A S).
Implicit Types (x_ids x_feats : list (pyval A)).
Implicit Types (batched_size size : option Z) (mean_only : bool).

(** X6.  A model that is not of kind ['mpn'] never looks at the identifier
    stream: the run is the same whatever [x_ids] is. *)
Theorem apply_ignores_identifiers
        self x_ids x_ids' x_feats batched_size size mean_only w :
  type_ self <> "mpn"%string ->
  apply self x_ids' x_feats batched_size size mean_only w
  = apply self x_ids x_feats batched_size size mean_only w.
Proof.
  intros Hk. apply feature_based_eqb in Hk. unfold apply. now rewrite Hk.
Qed.

(** X7.  On a pre-batched stream (model not of kind ['mpn'], [batched_size]
    non-zero) [test_batch_size] plays no part: two instances of one class that
    differ in it run alike, so even an instance built with 0 works there. *)
Theorem apply_pre_batched_ignores_test_batch_size
        cls n1 n2 x_ids x_feats b size mean_only w :
  b_type_ cls <> "mpn"%string ->
  b <> 0 ->
  apply (__init__ cls n1) x_ids x_feats (Some b) size mean_only w
  = apply (__init__ cls n2) x_ids x_feats (Some b) size mean_only w.
Proof.
  intros Hk Hb. rewrite !apply_unfold.
  unfold effective_batch_size, pre_batched, batch_stream, truthy. simpl type_.
  apply String.eqb_neq in Hk. rewrite Hk.
  destruct (Z.eqb_spec b 0); [contradiction|]. reflexivity.
Qed.

End Independence.

(** ** Runs on streams put end to end *)

Section Composition.
Context {A V E S : Type}.
Implicit Types (self : Model A V E S) (w : world A S).
Implicit Types (x_ids x_feats : list (pyval A)).
Implicit Types (batched_size size : option Z) (mean_only : bool).

Lemma apply_app_streams
      self mean_only batched_size
      x_ids1 x_feats1 size1 x_ids2 x_feats2 size2 x_ids x_feats size
      w m1 v1 w1 m2 v2 w2 :
  batch_stream self x_ids x_feats batched_size
  = batch_stream self x_ids1 x_feats1 batched_size
    ++ batch_stream self x_ids2 x_feats2 batched_size ->
  estimate_raises self batched_size size = false ->
  apply self x_ids1 x_feats1 batched_size size1 mean_only w = (Ok (m1, v1), w1) ->
  apply self x_ids2 x_feats2 batched_size size2 mean_only w1 = (Ok (m2, v2), w2) ->
  exists w',
    apply self x_ids x_feats batched_size size mean_only w
    = (Ok (m1 ++ m2, v1 ++ v2), w') /\
    backend w' = backend w2 /\ calls w' = calls w2.
Proof.
  intros Hst Hz H1 H2.
  apply apply_returns_inv in H1 as (_ & o1 & Ha1 & -> & -> & Hc1 & _).
  apply apply_returns_inv in H2 as (_ & o2 & Ha2 & -> & -> & Hc2 & _).
  pose proof (answers_app Ha1 Ha2) as Ha. rewrite <- Hst in Ha.
  eexists. split; [|split].
  - erewrite apply_returns_gen by eassumption.
    rewrite !map_app, !concat_app. reflexivity.
  - reflexivity.
  - simpl. now rewrite Hc2, Hc1, Hst, map_app, app_assoc.
Qed.

(** X8.  Pre-batched streams compose: if a run on [x_feats1] returns and a
    run on [x_feats2], started where the first one left the backend, returns,
    then the run on [x_feats1 ++ x_feats2] returns the means and the variances
    of the first followed by those of the second, and leaves the backend and
    the calls as the second run did. *)
Theorem apply_pre_batched_app
        self x_ids x_feats1 x_feats2 b size1 size2 size mean_only
        w m1 v1 w1 m2 v2 w2 :
  type_ self <> "mpn"%string ->
  b <> 0 ->
  apply self x_ids x_feats1 (Some b) size1 mean_only w = (Ok (m1, v1), w1) ->
  apply self x_ids x_feats2 (Some b) size2 mean_only w1 = (Ok (m2, v2), w2) ->
  exists w',
    apply self x_ids (x_feats1 ++ x_feats2) (Some b) size mean_only w
    = (Ok (m1 ++ m2, v1 ++ v2), w') /\
    backend w' = backend w2 /\ calls w' = calls w2.
Proof.
  intros Hk Hb. apply feature_based_eqb in Hk.
  assert (Ht : truthy (Some b) = true)
    by (unfold truthy; now destruct (Z.eqb_spec b 0)).
  apply apply_app_streams.
  - unfold batch_stream. now rewrite Hk, Ht.
  - apply estimate_raises_false. intros _.
    unfold effective_batch_size, pre_batched. now rewrite Hk, Ht.
Qed.

(** X9.  Re-batched streams compose where the cut falls on a batch boundary:
    for a positive [test_batch_size] that divides the length of the first
    stream, the run on the two streams put end to end returns the results of
    the run on the first followed by those of the run on the second (started
    where the first left the backend). *)
Theorem apply_rebatched_app
        self x_ids1 x_feats1 x_ids2 x_feats2 batched_size size1 size2 size
        mean_only w m1 v1 w1 m2 v2 w2 :
  0 < test_batch_size self ->
  pre_batched self batched_size = false ->
  Z.of_nat (length (if (type_ self =? "mpn")%string then x_ids1 else x_feats1))
    mod test_batch_size self = 0 ->
  apply self x_ids1 x_feats1 batched_size size1 mean_only w = (Ok (m1, v1), w1) ->
  apply self x_ids2 x_feats2 batched_size size2 mean_only w1 = (Ok (m2, v2), w2) ->
  exists w',
    apply self (x_ids1 ++ x_ids2) (x_feats1 ++ x_feats2) batched_size size
          mean_only w
    = (Ok (m1 ++ m2, v1 ++ v2), w') /\
    backend w' = backend w2 /\ calls w' = calls w2.
Proof.
  intros Hn Hpre Hmod.
  apply apply_app_streams.
  - revert Hpre Hmod. unfold pre_batched, batch_stream.
    destruct (type_ self =? "mpn")%string; simpl.
    + intros _ Hmod. now rewrite batches_app, map_app.
    + intros -> Hmod. now rewrite batches_app, map_app.
  - apply estimate_raises_false. intros _.
    apply effective_batch_size_nonzero. lia.
Qed.

End Composition.

(** ** The estimate against the batches made *)

Section EstimateAccuracy.
Context {A V E S : Type}.
Implicit Types (self : Model A V E S) (w : world A S).
Implicit Types (x_ids x_feats inputs : list (pyval A)).
Implicit Types (batched_size : option Z) (mean_only : bool).

(** X10.  On a stream of [N > 0] inputs that [apply] re-batches itself, with
    [size = N] and a positive [test_batch_size], a run that returns has made
    [ceil (N / test_batch_size)] prediction calls, and the total given to the
    bar is that number when [test_batch_size] does not divide [N] and one more
    when it does. *)
Theorem progress_estimate_vs_batches
        self x_ids x_feats batched_size mean_only w inputs v :
  0 < test_batch_size self ->
  pre_batched self batched_size = false ->
  individual_inputs self x_ids x_feats batched_size = Some inputs ->
  inputs <> [] ->
  let n := test_batch_size self in
  let N := Z.of_nat (length inputs) in
  let r := apply self x_ids x_feats batched_size (Some N) mean_only w in
  fst r = Ok v ->
  exists new,
    calls (snd r) = calls w ++ new /\
    Z.of_nat (length new) = (N + n - 1) / n /\
    progress (snd r)
    = progress w
      ++ [Some (Z.of_nat (length new) + (if N mod n =? 0 then 1 else 0))].
Proof.
  intros Hn Hpre Hin Hne. cbv zeta.
  destruct (apply self x_ids x_feats batched_size
                  (Some (Z.of_nat (length inputs))) mean_only w)
    as [[[m v0]|e] w'] eqn:Hrun; simpl; intros Hv; [|discriminate].
  apply apply_returns_inv in Hrun as (_ & outs & _ & _ & _ & Hc & Hp).
  assert (Hst : batch_stream self x_ids x_feats batched_size
                = map (@PyList A) (batches inputs (test_batch_size self))).
  { revert Hin Hpre. unfold individual_inputs, batch_stream, pre_batched.
    destruct (type_ self =? "mpn")%string; simpl.
    - now intros [= <-].
    - intros Hin Ht. rewrite Ht in Hin |- *. now injection Hin as <-. }
  assert (Hd : effective_batch_size self batched_size = test_batch_size self)
    by (unfold effective_batch_size; now rewrite Hpre).
  eexists. split; [exact Hc|].
  assert (Hlen : Z.of_nat (length (map (pair (method_of mean_only))
                     (batch_stream self x_ids x_feats batched_size)))
                 = (Z.of_nat (length inputs) + test_batch_size self - 1)
                   / test_batch_size self).
  { rewrite Hst, !length_map. now apply batches_length. }
  split; [exact Hlen|].
  rewrite Hp, Hd, Hlen. unfold estimate.
  destruct (Z.eqb_spec (Z.of_nat (length inputs)) 0) as [H0|_].
  - destruct inputs; [contradiction|discriminate].
  - now rewrite floor_succ_vs_ceiling.
Qed.

End EstimateAccuracy.

(** ** The further properties on the concrete models *)

Lemma apply_returns_iff_witness :
  apply Examples.forest [] Examples.five_by_3 (Some 3) (Some 5) false Examples.w0
  = (Ok ([2; 4; 6; 8; 10], [1; 4; 9; 16; 25]),
     World 2%nat
           [(GetMeansAndVars, PyList (Examples.ids [1; 2; 3]));
            (GetMeansAndVars, PyList (Examples.ids [4; 5]))]
           [Some 2]).
Proof.
  apply (proj2 (@apply_returns_iff _ _ _ _ Examples.forest [] Examples.five_by_3
                  (Some 3) (Some 5) false Examples.w0 _ _ _)).
  split; [discriminate|].
  exists [([2; 4; 6], [1; 4; 9]); ([8; 10], [16; 25])].
  repeat split.
  econstructor; [reflexivity|]. econstructor; [reflexivity|]. constructor.
Defined.

Lemma apply_raises_iff_witness :
  apply Examples.wary [] Examples.five13 None (Some 5) true Examples.w0
  = (Raise (PredictionError "thirteen"%string),
     World 2%nat
           [(GetMeans, PyList (Examples.ids [1; 2]));
            (GetMeans, PyList (Examples.ids [13; 4]))]
           [Some 3]).
Proof.
  apply (proj2 (@apply_raises_iff _ _ _ _ Examples.wary [] Examples.five13
                  None (Some 5) true Examples.w0 _ _)).
  split; [discriminate|].
  exists [PyList (Examples.ids [1; 2])], (PyList (Examples.ids [13; 4])),
         [PyList (Examples.ids [5])], [([2; 4], [])], 1%nat.
  repeat split.
  econstructor; [reflexivity|]. constructor.
Defined.


Lemma apply_mean_only_no_variances_witness :
  apply Examples.forest [] Examples.five None (Some 5) true Examples.w0
  = (Ok ([2; 4; 6; 8; 10], []),
     World 3%nat
           [(GetMeans, PyList (Examples.ids [1; 2]));
            (GetMeans, PyList (Examples.ids [3; 4]));
            (GetMeans, PyList (Examples.ids [5]))]
           [Some 3]) /\
  @nil Z = [].
Proof.
  split; [reflexivity|].
  apply (@apply_mean_only_no_variances _ _ _ _ Examples.forest [] Examples.five
           None (Some 5) Examples.w0 [2; 4; 6; 8; 10] [] _ eq_refl).
Defined.

Lemma apply_ignores_identifiers_witness :
  type_ Examples.forest <> "mpn"%string /\
  apply Examples.forest Examples.five13 Examples.five None (Some 5) false
        Examples.w0
  = apply Examples.forest [] Examples.five None (Some 5) false Examples.w0.
Proof.
  split; [discriminate|].
  apply (@apply_ignores_identifiers _ _ _ _ Examples.forest [] Examples.five13
           Examples.five None (Some 5) false Examples.w0).
  discriminate.
Defined.

Lemma apply_pre_batched_ignores_test_batch_size_witness :
  b_type_ (Examples.counting "rf") <> "mpn"%string /\
  3 <> 0 /\
  apply (__init__ (Examples.counting "rf") 0) [] Examples.five_by_3 (Some 3)
        (Some 5) true Examples.w0
  = apply (__init__ (Examples.counting "rf") 2) [] Examples.five_by_3 (Some 3)
          (Some 5) true Examples.w0.
Proof.
  split; [discriminate|]. split; [discriminate|].
  apply (@apply_pre_batched_ignores_test_batch_size _ _ _ _
           (Examples.counting "rf") 0 2 [] Examples.five_by_3 3 (Some 5) true
           Examples.w0); discriminate.
Defined.

Lemma apply_pre_batched_app_witness :
  type_ Examples.forest <> "mpn"%string /\
  3 <> 0 /\
  apply Examples.forest [] [PyList (Examples.ids [1; 2; 3])] (Some 3) None false
        Examples.w0
  = (Ok ([2; 4; 6], [1; 4; 9]),
     World 1%nat [(GetMeansAndVars, PyList (Examples.ids [1; 2; 3]))] [None]) /\
  apply Examples.forest [] [PyList (Examples.ids [4; 5])] (Some 3) None false
        (World 1%nat [(GetMeansAndVars, PyList (Examples.ids [1; 2; 3]))] [None])
  = (Ok ([8; 10], [16; 25]),
     World 2%nat
           [(GetMeansAndVars, PyList (Examples.ids [1; 2; 3]));
            (GetMeansAndVars, PyList (Examples.ids [4; 5]))]
           [None; None]) /\
  exists w',
    apply Examples.forest []
          ([PyList (Examples.ids [1; 2; 3])] ++ [PyList (Examples.ids [4; 5])])
          (Some 3) (Some 5) false Examples.w0
    = (Ok ([2; 4; 6] ++ [8; 10], [1; 4; 9] ++ [16; 25]), w') /\
    backend w' = 2%nat /\
    calls w' = [(GetMeansAndVars, PyList (Examples.ids [1; 2; 3]));
                (GetMeansAndVars, PyList (Examples.ids [4; 5]))].
Proof.
  split; [discriminate|]. split; [discriminate|].
  split; [reflexivity|]. split; [reflexivity|].
  apply (@apply_pre_batched_app _ _ _ _ Examples.forest []
           [PyList (Examples.ids [1; 2; 3])] [PyList (Examples.ids [4; 5])]
           3 None None (Some 5) false Examples.w0
           [2; 4; 6] [1; 4; 9]
           (World 1%nat [(GetMeansAndVars, PyList (Examples.ids [1; 2; 3]))]
                  [None])
           [8; 10] [16; 25]
           (World 2%nat
                  [(GetMeansAndVars, PyList (Examples.ids [1; 2; 3]));
                   (GetMeansAndVars, PyList (Examples.ids [4; 5]))]
                  [None; None]));
    try discriminate; reflexivity.
Defined.

Lemma apply_rebatched_app_witness :
  0 < test_batch_size Examples.network /\
  pre_batched Examples.network (Some 3) = false /\
  Z.of_nat (length (Examples.ids [1; 2])) mod test_batch_size Examples.network
  = 0 /\
  exists w',
    apply Examples.network (Examples.ids [1; 2] ++ Examples.ids [3; 4; 5])
          ([] ++ []) (Some 3) (Some 5) true Examples.w0
    = (Ok ([2; 4] ++ [6; 8; 10], [] ++ []), w') /\
    backend w' = 3%nat /\
    calls w' = [(GetMeans, PyList (Examples.ids [1; 2]));
                (GetMeans, PyList (Examples.ids [3; 4]));
                (GetMeans, PyList (Examples.ids [5]))].
Proof.
  split; [reflexivity|]. split; [reflexivity|]. split; [reflexivity|].
  apply (@apply_rebatched_app _ _ _ _ Examples.network
           (Examples.ids [1; 2]) [] (Examples.ids [3; 4; 5]) [] (Some 3)
           (Some 2) (Some 3) (Some 5) true Examples.w0
           [2; 4] []
           (World 1%nat [(GetMeans, PyList (Examples.ids [1; 2]))] [Some 2])
           [6; 8; 10] []
           (World 3%nat
                  [(GetMeans, PyList (Examples.ids [1; 2]));
                   (GetMeans, PyList (Examples.ids [3; 4]));
                   (GetMeans, PyList (Examples.ids [5]))]
                  [Some 2; Some 2]));
    reflexivity.
Defined.

Lemma progress_estimate_vs_batches_witness :
  0 < test_batch_size Examples.forest /\
  pre_batched Examples.forest None = false /\
  individual_inputs Examples.forest [] (Examples.ids [1; 2; 3; 4]) None
  = Some (Examples.ids [1; 2; 3; 4]) /\
  Examples.ids [1; 2; 3; 4] <> [] /\
  exists new,
    calls (snd (apply Examples.forest [] (Examples.ids [1; 2; 3; 4]) None
                      (Some 4) true Examples.w0))
    = calls Examples.w0 ++ new /\
    Z.of_nat (length new) = (4 + 2 - 1) / 2 /\
    progress (snd (apply Examples.forest [] (Examples.ids [1; 2; 3; 4]) None
                         (Some 4) true Examples.w0))
    = progress Examples.w0 ++ [Some (Z.of_nat (length new) + 1)].
Proof.
  split; [reflexivity|]. split; [reflexivity|]. split; [reflexivity|].
  split; [discriminate|].
  apply (@progress_estimate_vs_batches _ _ _ _ Examples.forest []
           (Examples.ids [1; 2; 3; 4]) None true Examples.w0
           (Examples.ids [1; 2; 3; 4]) ([2; 4; 6; 8], []));
    try reflexivity; discriminate.
Defined.

Lemma apply_empty_stream_witness :
  0 < test_batch_size Examples.forest /\
  apply Examples.forest Examples.five [] None (Some 5) false Examples.w0
  = (Ok ([], []), World 0%nat [] [Some 3]).
Proof.
  split; [reflexivity|].
  apply (@apply_empty_stream _ _ _ _ Examples.forest Examples.five [] None
           (Some 5) false Examples.w0); reflexivity.
Defined.
